(** * SecTriageBot: decision engine, consistency validator, comment synthesizer

    A shallow embedding of [validate_tickets.py], [fix_tickets.py] and the
    comment functions of [generate_tickets.py], with the properties the
    design document states about them.

    Python values that come out of [json.loads] are modelled by [json];
    a Python [dict] is a finite map from strings, exceptions are values of
    [exn], and a Python function that may raise returns a [result].
    [str.lower] is modelled on the letters below U+0080, where the letters
    of the five labels are.  The blank test [not line.strip()] and
    [json.loads] belong to the Python runtime: the model takes them as
    parameters, and what is proved holds whatever they are. *)

From Stdlib Require Import Ascii ZArith.
From stdpp Require Import gmap strings list fin_maps sorting pretty.

Set Warnings "-register-all".

(** ** Python values *)

Inductive json : Type :=
| JNull
| JBool (b : bool)
| JInt (n : Z)
| JFloat (lit : string)
| JStr (s : string)
| JArr (l : list json)
| JObj (m : gmap string json).

(** The exceptions the modelled code can raise.  [KeyError] carries the
    missing key, as in Python; [TypeError] and [AttributeError] carry the
    Python type name of the offending operand, which is all their message
    depends on. *)
Inductive exn : Type :=
| KeyError (key : string)
| TypeError (ty : string)
| AttributeError (ty : string)
| JSONDecodeError (msg : string) (pos : nat).

Inductive result (A : Type) : Type :=
| Ok (a : A)
| Raise (e : exn).
Arguments Ok {A} a.
Arguments Raise {A} e.

(** Sequencing stops at the first exception. *)
Definition bind {A B : Type} (r : result A) (k : A -> result B) : result B :=
  match r with
  | Ok a => k a
  | Raise e => Raise e
  end.

Notation "'let*' x ':=' r 'in' k" := (bind r (fun x => k))
  (at level 10, x name, r at level 100, k at level 200).

Definition py_type (v : json) : string :=
  match v with
  | JNull => "NoneType"
  | JBool _ => "bool"
  | JInt _ => "int"
  | JFloat _ => "float"
  | JStr _ => "str"
  | JArr _ => "list"
  | JObj _ => "dict"
  end.

(** [o[k]] with a string key [k]. *)
Definition subscript (o : json) (k : string) : result json :=
  match o with
  | JObj m => match m !! k with
              | Some v => Ok v
              | None => Raise (KeyError k)
              end
  | _ => Raise (TypeError (py_type o))
  end.

(** [data[section][key]] *)
Definition field (data : json) (section key : string) : result json :=
  let* s := subscript data section in subscript s key.

(** [v == s] for a string literal [s]: only a [str] can be equal to it. *)
Definition eq_str (v : json) (s : string) : bool :=
  match v with
  | JStr t => bool_decide (t = s)
  | _ => false
  end.

(** [needle in hay] on two strings: substring test. *)
Fixpoint contains (needle hay : string) : bool :=
  String.prefix needle hay ||
  match hay with
  | EmptyString => false
  | String _ rest => contains needle rest
  end.

(** [s in v] for a string literal [s]: substring of a [str], element of a
    [list], key of a [dict]; the other types are not iterable. *)
Definition str_in (s : string) (v : json) : result bool :=
  match v with
  | JStr t => Ok (contains s t)
  | JArr l => Ok (existsb (fun x => eq_str x s) l)
  | JObj m => Ok (bool_decide (is_Some (m !! s)))
  | _ => Raise (TypeError (py_type v))
  end.

(** [a or b] where either operand may raise: [b] is evaluated only when
    [a] is false. *)
Definition py_or (a b : result bool) : result bool :=
  let* x := a in if x then Ok true else b.

Definition lower_ascii (c : ascii) : ascii :=
  let n := nat_of_ascii c in
  if (65 <=? n) && (n <=? 90) then ascii_of_nat (n + 32) else c.

Fixpoint lower (s : string) : string :=
  match s with
  | EmptyString => EmptyString
  | String c rest => String (lower_ascii c) (lower rest)
  end.

(** The line feed, and [sep.join(l)]. *)
Definition nl : string := String "010"%char EmptyString.

Fixpoint join (sep : string) (l : list string) : string :=
  match l with
  | [] => EmptyString
  | [x] => x
  | x :: rest => x +:+ sep +:+ join sep rest
  end.

(** [reasons.append(clause)] when [cond] holds. *)
Definition append_if (cond : bool) (clause : string) (reasons : list string)
  : list string :=
  if cond then reasons ++ [clause] else reasons.

(** What an f-string puts in place of [str v]: a [str] as it is; the text
    Python gives the other values is left open. *)
Definition fmt (str_of_other : json -> string) (v : json) : string :=
  match v with
  | JStr s => s
  | _ => str_of_other v
  end.

(** [v.lower()]: only [str] has the method. *)
Definition py_lower (v : json) : result string :=
  match v with
  | JStr s => Ok (lower s)
  | _ => Raise (AttributeError (py_type v))
  end.

(** [s in v.lower()] *)
Definition in_lower (s : string) (v : json) : result bool :=
  let* lowered := py_lower v in Ok (contains s lowered).

(** [o[k] = v] with a string key [k]: only a [dict] takes it. *)
Definition setitem (o : json) (k : string) (v : json) : result json :=
  match o with
  | JObj m => Ok (JObj (<[k := v]> m))
  | _ => Raise (TypeError (py_type o))
  end.

(** What a run leaves behind, whether it returns or raises: the tickets
    written to the output file, each as [json.dumps(ticket)] and a line
    feed, and the lines printed. *)
Record Output : Type := { written : list json; printed : list string }.

Definition no_output : Output := {| written := []; printed := [] |}.

(** A computation that writes and prints, and returns or raises. *)
Definition IO (A : Type) : Type := Output -> Output * result A.

Definition io_ret {A : Type} (a : A) : IO A := fun out => (out, Ok a).

Definition io_bind {A B : Type} (m : IO A) (k : A -> IO B) : IO B :=
  fun out =>
    match m out with
    | (out', Ok a) => k a out'
    | (out', Raise e) => (out', Raise e)
    end.

Definition lift {A : Type} (r : result A) : IO A := fun out => (out, r).

Definition print (s : string) : IO unit :=
  fun out => ({| written := written out; printed := printed out ++ [s] |}, Ok tt).

Definition write (ticket : json) : IO unit :=
  fun out => ({| written := written out ++ [ticket]; printed := printed out |}, Ok tt).

Notation "'do' x '<-' m ';' k" := (io_bind m (fun x => k))
  (at level 10, x name, m at level 100, k at level 200).

(** ** The decision engine, [validate_tickets.py] *)

Module Validate.

Definition apply_decision_logic (data : json) : result string :=
  let* rotation_status := field data "investigation" "rotation_status" in
  let* repo_type := field data "repo_details" "type" in
  let* usage_evidence := field data "investigation" "usage_evidence" in
  let* criticality := field data "repo_details" "criticality" in
  let* exposure := field data "repo_details" "exposure" in
  let* past_incidents := field data "investigation" "similar_past_incidents" in
  if eq_str rotation_status "Revoked" || eq_str rotation_status "Already Rotated"
  then Ok "Mitigated"
  else if eq_str rotation_status "Invalid"
  then Ok "False Positive"
  else
    let* archived := py_or (str_in "Deprecated" repo_type) (str_in "Archived" repo_type) in
    if archived then Ok "Suppressed"
    else
      let* is_active_usage := str_in "Active usage" usage_evidence in
      let* is_high_criticality := py_or (str_in "P0" criticality) (str_in "P1" criticality) in
      let* is_public := str_in "Public" exposure in
      let* is_prod_or_monolith := py_or (str_in "Prod" repo_type) (str_in "Monolith" repo_type) in
      let is_test_qa := eq_str repo_type "Test/QA Suite" in
      if is_test_qa
         && eq_str past_incidents "Frequent False Positives in this file"
         && negb is_active_usage
      then Ok "False Positive"
      else if eq_str rotation_status "Active/Valid" && is_active_usage
      then Ok "Confirmed"
      else if eq_str rotation_status "Active/Valid" && is_high_criticality && is_public
      then Ok "Confirmed"
      else if eq_str rotation_status "Active/Valid"
      then Ok "Open"
      else Ok "Open".

(** The per-label tally, a [defaultdict] whose missing entries read as
    zero counts. *)
Record Counts : Type := { correct : nat; incorrect : nat }.

Definition counts_of (by_label : gmap string Counts) (label : string) : Counts :=
  default {| correct := 0; incorrect := 0 |} (by_label !! label).

Definition incr_correct (by_label : gmap string Counts) (label : string)
  : gmap string Counts :=
  let c := counts_of by_label label in
  <[label := {| correct := S (correct c); incorrect := incorrect c |}]> by_label.

Definition incr_incorrect (by_label : gmap string Counts) (label : string)
  : gmap string Counts :=
  let c := counts_of by_label label in
  <[label := {| correct := correct c; incorrect := S (incorrect c) |}]> by_label.

(** One entry of the mismatch list. *)
Record Mismatch : Type := {
  line : nat;
  ticket_id : json;
  expected : string;
  actual : string;
  rotation_status : json;
  repo_type : json;
  usage : json;
  criticality : json;
  past_incidents : json
}.

Record Results : Type := {
  total : nat;
  matches : nat;
  mismatches : list Mismatch;
  by_label : gmap string Counts
}.

Definition initial_results : Results :=
  {| total := 0; matches := 0; mismatches := []; by_label := ∅ |}.

Section Validator.

(** [not line.strip()]: the line has nothing but white space, in the sense
    of Python's [str.strip()] on the text of the file. *)
Variable is_blank : string -> bool.

(** [json.loads], from the Python standard library. *)
Variable json_loads : string -> result json.

(** The body of the loop over the lines of the file.  [actual_label.lower()]
    raises [AttributeError] unless the recorded label is a [str]; the
    exception leaves the function, and the report built so far with it. *)
Definition validate_line (line_num : nat) (ln : string) (results : Results)
  : result Results :=
  if is_blank ln then Ok results
  else
    let* ticket := json_loads ln in
    let total' := S (total results) in
    let* data := subscript ticket "data" in
    let* expected_label := apply_decision_logic data in
    let* actual_label := subscript ticket "label" in
    match actual_label with
    | JStr actual_label =>
      if bool_decide (lower expected_label = lower actual_label) then
        Ok {| total := total';
              matches := S (matches results);
              mismatches := mismatches results;
              by_label := incr_correct (by_label results) actual_label |}
      else
        let* tid := subscript ticket "ticket_id" in
        let* data := subscript ticket "data" in
        let* rot := field data "investigation" "rotation_status" in
        let* data := subscript ticket "data" in
        let* rty := field data "repo_details" "type" in
        let* data := subscript ticket "data" in
        let* use := field data "investigation" "usage_evidence" in
        let* data := subscript ticket "data" in
        let* crit := field data "repo_details" "criticality" in
        let* data := subscript ticket "data" in
        let* past := field data "investigation" "similar_past_incidents" in
        Ok {| total := total';
              matches := matches results;
              mismatches := mismatches results ++ [
                {| line := line_num;
                   ticket_id := tid;
                   expected := expected_label;
                   actual := actual_label;
                   rotation_status := rot;
                   repo_type := rty;
                   usage := use;
                   criticality := crit;
                   past_incidents := past |} ];
              by_label := incr_incorrect (by_label results) actual_label |}
    | _ => Raise (AttributeError (py_type actual_label))
    end.

(** [for line_num, line in enumerate(f, 1)], from [line_num] on. *)
Fixpoint validate_loop (line_num : nat) (lines : list string) (results : Results)
  : result Results :=
  match lines with
  | [] => Ok results
  | ln :: rest =>
    let* results := validate_line line_num ln results in
    validate_loop (S line_num) rest results
  end.

(** [validate_dataset], on the lines of the file. *)
Definition validate_dataset (lines : list string) : result Results :=
  validate_loop 1 lines initial_results.

End Validator.

End Validate.

(** ** The decision engine, [fix_tickets.py] *)

Module Fix.

Definition apply_decision_logic (data : json) : result string :=
  let* rotation_status := field data "investigation" "rotation_status" in
  let* repo_type := field data "repo_details" "type" in
  let* usage_evidence := field data "investigation" "usage_evidence" in
  let* criticality := field data "repo_details" "criticality" in
  let* exposure := field data "repo_details" "exposure" in
  let* past_incidents := field data "investigation" "similar_past_incidents" in
  if eq_str rotation_status "Revoked" || eq_str rotation_status "Already Rotated"
  then Ok "Mitigated"
  else if eq_str rotation_status "Invalid"
  then Ok "False Positive"
  else
    let* archived := py_or (str_in "Deprecated" repo_type) (str_in "Archived" repo_type) in
    if archived then Ok "Suppressed"
    else
      let* is_active_usage := str_in "Active usage" usage_evidence in
      let* is_high_criticality := py_or (str_in "P0" criticality) (str_in "P1" criticality) in
      let* is_public := str_in "Public" exposure in
      let is_test_qa := eq_str repo_type "Test/QA Suite" in
      if is_test_qa
         && eq_str past_incidents "Frequent False Positives in this file"
         && negb is_active_usage
      then Ok "False Positive"
      else if eq_str rotation_status "Active/Valid" && is_active_usage
      then Ok "Confirmed"
      else if eq_str rotation_status "Active/Valid" && is_high_criticality && is_public
      then Ok "Confirmed"
      else if eq_str rotation_status "Active/Valid"
      then Ok "Open"
      else Ok "Open".

Section Comment.

Variable str_of_other : json -> string.
Abbreviation str := (fmt str_of_other).

Definition generate_comment (data : json) (label : string) : result string :=
  let* category := subscript data "category" in
  let* repo_type := field data "repo_details" "type" in
  let* usage := field data "investigation" "usage_evidence" in
  let* status := field data "investigation" "rotation_status" in
  let* criticality := field data "repo_details" "criticality" in
  let* detection := field data "detection" "source" in
  let* exposure := field data "repo_details" "exposure" in
  let* impact := field data "investigation" "impact_radius" in
  let* past_incidents := field data "investigation" "similar_past_incidents" in
  let headline :=
    "Automated analysis: " +:+ str category +:+ " detected in " +:+ str repo_type +:+ "." in
  let context :=
    nl +:+ "Context:" +:+ nl +:+
    "- Usage: " +:+ str usage +:+ nl +:+
    "- Status: " +:+ str status +:+ nl +:+
    "- Criticality: " +:+ str criticality +:+ nl +:+
    "- Detection Source: " +:+ str detection in
  let recommendation := nl +:+ "Recommendation: Mark as " +:+ label +:+ "." in
  let* reasoning :=
    if bool_decide (label = "Mitigated") then
      if eq_str status "Revoked" then
        Ok (nl +:+ "Reasoning: Credential has been revoked and is no longer valid. No further action required. Verify rotation in key management system.")
      else
        Ok (nl +:+ "Reasoning: Credential has already been rotated; new key is in place. No further action required. Verify rotation in key management system.")
    else if bool_decide (label = "False Positive") then
      let reasons := [] in
      let reasons := append_if (eq_str status "Invalid")
        "Credential validation failed - not a valid secret format." reasons in
      let reasons := append_if (eq_str past_incidents "Frequent False Positives in this file")
        "File has history of false positive detections." reasons in
      let* test := py_or (str_in "Test" repo_type) (str_in "QA" repo_type) in
      let reasons := append_if test
        "Test fixture or example data - not a real credential." reasons in
      let reasons := reasons ++ ["No remediation required. Consider adding to allowlist."] in
      Ok (nl +:+ "Reasoning: " +:+ join " " reasons)
    else if bool_decide (label = "Suppressed") then
      let reasons := ["Repository is archived/deprecated with no active deployments."] in
      let* unused := str_in "No usage found" usage in
      let reasons := append_if unused "No usage detected in 90+ days." reasons in
      let reasons := reasons ++ ["Risk accepted per security policy. Document and close."] in
      Ok (nl +:+ "Reasoning: " +:+ join " " reasons)
    else if bool_decide (label = "Confirmed") then
      let reasons := ["High-confidence active threat detected."] in
      let* active := str_in "Active usage" usage in
      let reasons := append_if active
        "Recent usage logs confirm the credential is actively being used." reasons in
      let* public := str_in "Public" exposure in
      let reasons := append_if public
        "Public exposure increases risk of credential harvesting." reasons in
      let* p0 := str_in "P0" criticality in
      let reasons := append_if p0
        "Repository handles customer data - immediate rotation required." reasons in
      let reasons := reasons ++
        ["Impact radius: " +:+ str impact +:+ ". Initiate incident response protocol."] in
      Ok (nl +:+ "Reasoning: " +:+ join " " reasons)
    else
      let reasons := ["Valid credential requiring remediation.";
                      "Credential is still active and has not been rotated."] in
      let* prod := py_or (str_in "Prod" repo_type) (str_in "Monolith" repo_type) in
      let reasons := append_if prod
        ("Found in " +:+ str repo_type +:+ " - prioritize based on " +:+ str criticality +:+ ".")
        reasons in
      let reasons := reasons ++ ["Assign to repository owner for rotation."] in
      Ok (nl +:+ "Reasoning: " +:+ join " " reasons) in
  Ok (headline +:+ context +:+ recommendation +:+ reasoning).

End Comment.

Section FixDataset.

(** [not line.strip()], as in the validator. *)
Variable is_blank : string -> bool.
Variable json_loads : string -> result json.
Variable str_of_other : json -> string.
Abbreviation str := (fmt str_of_other).

(** The body of the loop on a line that is not blank; [fixed_count] and
    [total] are the counters before the line, the result is the counters
    after it. *)
Definition fix_line (ln : string) (fixed_count total : nat) : IO (nat * nat) :=
  do ticket <- lift (json_loads ln);
  let total := S total in
  do data <- lift (subscript ticket "data");
  do correct_label <- lift (apply_decision_logic data);
  do label <- lift (subscript ticket "label");
  do fixed_count <-
    (if negb (eq_str label correct_label) then
       let fixed_count := S fixed_count in
       do tid <- lift (subscript ticket "ticket_id");
       do label <- lift (subscript ticket "label");
       do _ <- print ("Fixed " +:+ str tid +:+ ": " +:+ str label +:+ " -> "
                      +:+ correct_label);
       io_ret fixed_count
     else io_ret fixed_count);
  do ticket <- lift (setitem ticket "label" (JStr correct_label));
  do data <- lift (subscript ticket "data");
  do comment <- lift (generate_comment str_of_other data correct_label);
  do ticket <- lift (setitem ticket "ideal_llm_comment" (JStr comment));
  do _ <- write ticket;
  io_ret (fixed_count, total).

(** [for line in f_in] *)
Fixpoint fix_loop (lines : list string) (fixed_count total : nat) : IO (nat * nat) :=
  match lines with
  | [] => io_ret (fixed_count, total)
  | ln :: rest =>
    if is_blank ln then fix_loop rest fixed_count total
    else
      do counters <- fix_line ln fixed_count total;
      fix_loop rest (fst counters) (snd counters)
  end.

Definition rule_line : string :=
  "============================================================".

(** [fix_dataset], on the lines of the input file. *)
Definition fix_dataset (lines : list string) (output_path : string) : IO nat :=
  do counters <- fix_loop lines 0 0;
  let fixed_count := fst counters in
  let total := snd counters in
  do _ <- print (nl +:+ rule_line);
  do _ <- print ("Total tickets: " +:+ pretty total);
  do _ <- print ("Fixed: " +:+ pretty fixed_count);
  do _ <- print ("Output written to: " +:+ output_path);
  io_ret fixed_count.

End FixDataset.

End Fix.

(** ** The comment functions of [generate_tickets.py] *)

Module Generate.

(** The fact domains the generator draws from. *)
Definition REPO_TYPES : list string :=
  [ "Prod Microservice";
    "Monolith Core";
    "Infrastructure-as-Code (Terraform/Ansible)";
    "Test/QA Suite";
    "Deprecated/Archived";
    "Internal Tooling";
    "Data Science Notebooks" ].

Definition EXPOSURE_TYPES : list string :=
  [ "Public (Open Source)"; "Private (Internal)"; "Internal (Partner Shared)" ].

Definition COMMIT_AGES : list string :=
  [ "Fresh (< 1 hour)"; "Recent (1-7 days)"; "Stale (> 6 months)";
    "Legacy (3+ years)" ].

Definition DETECTION_SOURCES : list string :=
  [ "TruffleHog"; "Gitleaks"; "SonarQube"; "GitHub Advanced Security";
    "Manual Bug Bounty" ].

Definition USAGE_EVIDENCES : list string :=
  [ "Active usage in CloudTrail/Logs (Last 1h)";
    "Intermittent usage (Last 7d)";
    "No usage found (90d+)";
    "Unable to verify" ].

Definition REPO_CRITICALITIES : list string :=
  [ "Critical (P0 - Customer Data)";
    "High (P1 - Business Logic)";
    "Medium (P2 - Internal)";
    "Low (P3 - Sandbox)" ].

Definition ROTATION_STATUSES : list string :=
  [ "Active/Valid"; "Already Rotated"; "Revoked"; "Invalid" ].

Definition SIMILAR_PAST_INCIDENTS : list string :=
  [ "None"; "Frequent False Positives in this file";
    "Recurring issue in this repo" ].

Definition IMPACT_RADII : list string :=
  [ "Single Service"; "Multiple Services"; "Cross-Team"; "Org Wide" ].

Section DetermineLabel.

(** [random.choice], at the one call [determine_label] may make of it. *)
Variable choice : list string -> string.

Definition determine_label (data : json) : result string :=
  let* repo_type := field data "repo_details" "type" in
  let* exposure := field data "repo_details" "exposure" in
  let* criticality := field data "repo_details" "criticality" in
  let* usage := field data "investigation" "usage_evidence" in
  let* rotation := field data "investigation" "rotation_status" in
  let* past_incidents := field data "investigation" "similar_past_incidents" in
  let* commit_age := field data "detection" "commit_age" in
  let* vuln_type := subscript data "category" in
  (* Rules 5 to 11 and the default *)
  let from_rule5 : result string :=
    if eq_str usage "Active usage in CloudTrail/Logs (Last 1h)"
       && eq_str exposure "Public (Open Source)"
    then Ok "Confirmed"
    else if eq_str criticality "Critical (P0 - Customer Data)"
            && eq_str usage "Active usage in CloudTrail/Logs (Last 1h)"
    then Ok "Confirmed"
    else
      let* source := field data "detection" "source" in
      if eq_str source "Manual Bug Bounty" && eq_str rotation "Active/Valid"
      then Ok "Confirmed"
      else if eq_str commit_age "Legacy (3+ years)"
              && eq_str usage "No usage found (90d+)"
              && eq_str criticality "Low (P3 - Sandbox)"
      then Ok "Suppressed"
      else if eq_str commit_age "Stale (> 6 months)"
              && eq_str usage "No usage found (90d+)"
              && eq_str exposure "Private (Internal)"
      then Ok (choice ["Suppressed"; "Mitigated"])
      else if eq_str repo_type "Data Science Notebooks"
              && eq_str past_incidents "Frequent False Positives in this file"
      then Ok "False Positive"
      else if eq_str rotation "Active/Valid"
      then
        if eq_str repo_type "Prod Microservice"
           || eq_str repo_type "Monolith Core"
           || eq_str repo_type "Infrastructure-as-Code (Terraform/Ansible)"
        then
          if eq_str usage "Active usage in CloudTrail/Logs (Last 1h)"
             || eq_str usage "Intermittent usage (Last 7d)"
          then Ok (choice ["Open"; "Confirmed"])
          else Ok "Open"
        else Ok "Open"
      else Ok "Open" in
  if eq_str rotation "Already Rotated" || eq_str rotation "Revoked"
  then Ok "Mitigated"
  else if eq_str rotation "Invalid"
  then Ok "False Positive"
  else if eq_str repo_type "Deprecated/Archived"
  then Ok "Suppressed"
  else if eq_str repo_type "Test/QA Suite"
  then
    if eq_str past_incidents "Frequent False Positives in this file"
    then Ok "False Positive"
    else
      let* example := py_or (in_lower "example" vuln_type)
                            (in_lower "test" vuln_type) in
      if example
      then Ok "False Positive"
      else if eq_str exposure "Private (Internal)"
      then Ok "Suppressed"
      else from_rule5
  else from_rule5.

End DetermineLabel.

Section Comment.

Variable str_of_other : json -> string.
Abbreviation str := (fmt str_of_other).

Definition generate_reasoning (data : json) (label : string) : result string :=
  let* repo_type := field data "repo_details" "type" in
  let* exposure := field data "repo_details" "exposure" in
  let* criticality := field data "repo_details" "criticality" in
  let* usage := field data "investigation" "usage_evidence" in
  let* rotation := field data "investigation" "rotation_status" in
  let* past_incidents := field data "investigation" "similar_past_incidents" in
  let* impact := field data "investigation" "impact_radius" in
  let reasons := [] in
  let reasons :=
    if bool_decide (label = "Mitigated") then
      let reasons :=
        if eq_str rotation "Already Rotated" then
          reasons ++ ["Credential has already been rotated; new key is in place."]
        else if eq_str rotation "Revoked" then
          reasons ++ ["Credential has been revoked and is no longer valid."]
        else reasons in
      reasons ++ ["No further action required. Verify rotation in key management system."]
    else if bool_decide (label = "Confirmed") then
      let reasons := reasons ++ ["High-confidence active threat detected."] in
      let reasons := append_if (eq_str usage "Active usage in CloudTrail/Logs (Last 1h)")
        "Recent usage logs confirm the credential is actively being used." reasons in
      let reasons := append_if (eq_str exposure "Public (Open Source)")
        "Public exposure increases risk of credential harvesting." reasons in
      let reasons := append_if (eq_str criticality "Critical (P0 - Customer Data)")
        "Repository handles customer data - immediate rotation required." reasons in
      reasons ++ ["Impact radius: " +:+ str impact +:+ ". Initiate incident response protocol."]
    else if bool_decide (label = "Open") then
      let reasons := reasons ++ ["Valid credential requiring remediation."] in
      let reasons := append_if (eq_str rotation "Active/Valid")
        "Credential is still active and has not been rotated." reasons in
      let reasons :=
        append_if (eq_str repo_type "Prod Microservice" || eq_str repo_type "Monolith Core")
          ("Found in " +:+ str repo_type +:+ " - prioritize based on " +:+ str criticality +:+ ".")
          reasons in
      reasons ++ ["Assign to repository owner for rotation."]
    else if bool_decide (label = "Suppressed") then
      let reasons := append_if (eq_str repo_type "Deprecated/Archived")
        "Repository is archived/deprecated with no active deployments." reasons in
      let reasons := append_if (eq_str usage "No usage found (90d+)")
        "No usage detected in 90+ days." reasons in
      let reasons := append_if (eq_str repo_type "Test/QA Suite")
        "Test environment with no production impact." reasons in
      reasons ++ ["Risk accepted per security policy. Document and close."]
    else if bool_decide (label = "False Positive") then
      let reasons := append_if (eq_str rotation "Invalid")
        "Credential validation failed - not a valid secret format." reasons in
      let reasons := append_if (eq_str past_incidents "Frequent False Positives in this file")
        "File has history of false positive detections." reasons in
      let reasons := append_if (eq_str repo_type "Test/QA Suite")
        "Test fixture or example data - not a real credential." reasons in
      reasons ++ ["No remediation required. Consider adding to allowlist."]
    else reasons in
  Ok (join " " reasons).

Definition generate_ideal_comment (data : json) (label : string) : result string :=
  let* vuln_type := subscript data "category" in
  let* repo_type := field data "repo_details" "type" in
  let* usage := field data "investigation" "usage_evidence" in
  let* rotation := field data "investigation" "rotation_status" in
  let* reasoning := generate_reasoning data label in
  let* criticality := field data "repo_details" "criticality" in
  let* source := field data "detection" "source" in
  Ok ("Automated analysis: " +:+ str vuln_type +:+ " detected in " +:+ str repo_type +:+ "." +:+ nl +:+
      nl +:+
      "Context:" +:+ nl +:+
      "- Usage: " +:+ str usage +:+ nl +:+
      "- Status: " +:+ str rotation +:+ nl +:+
      "- Criticality: " +:+ str criticality +:+ nl +:+
      "- Detection Source: " +:+ str source +:+ nl +:+
      nl +:+
      "Recommendation: Mark as " +:+ label +:+ "." +:+ nl +:+
      nl +:+
      "Reasoning: " +:+ reasoning).

End Comment.

End Generate.

(** ** The data model of the design document *)

(** The fact bundle: every field is a string. *)
Record FactBundle : Type := {
  category : string;
  repoType : string;
  exposure : string;
  criticality : string;
  detectionSource : string;
  commitAge : string;
  usageEvidence : string;
  rotationStatus : string;
  impactRadius : string;
  similarPastIncidents : string
}.

Inductive Label : Type :=
| Mitigated
| FalsePositive
| Suppressed
| Confirmed
| Open.

#[global] Instance Label_eq_dec : EqDecision Label.
Proof. solve_decision. Defined.

(** The label as it is written in a ticket record. *)
Definition label_str (l : Label) : string :=
  match l with
  | Mitigated => "Mitigated"
  | FalsePositive => "False Positive"
  | Suppressed => "Suppressed"
  | Confirmed => "Confirmed"
  | Open => "Open"
  end.

(** The [data] object of a ticket record that carries the bundle [b], laid
    out as in the record format (the raw snippet is not part of the
    bundle). *)
Definition bundle_data (snippet : string) (b : FactBundle) : json :=
  JObj (list_to_map [
    ("category", JStr (category b));
    ("raw_secret_snippet", JStr snippet);
    ("repo_details", JObj (list_to_map [
        ("type", JStr (repoType b));
        ("exposure", JStr (exposure b));
        ("criticality", JStr (criticality b))]));
    ("detection", JObj (list_to_map [
        ("source", JStr (detectionSource b));
        ("commit_age", JStr (commitAge b))]));
    ("investigation", JObj (list_to_map [
        ("usage_evidence", JStr (usageEvidence b));
        ("rotation_status", JStr (rotationStatus b));
        ("impact_radius", JStr (impactRadius b));
        ("similar_past_incidents", JStr (similarPastIncidents b))]))]).

(** [data] is a syntactically valid encoding of the bundle [b]: each of the
    ten facts is present at its place, as a string. Other keys, and the
    order of keys, are free. *)
Definition has_facts (data : json) (b : FactBundle) : Prop :=
  subscript data "category" = Ok (JStr (category b)) /\
  field data "repo_details" "type" = Ok (JStr (repoType b)) /\
  field data "repo_details" "exposure" = Ok (JStr (exposure b)) /\
  field data "repo_details" "criticality" = Ok (JStr (criticality b)) /\
  field data "detection" "source" = Ok (JStr (detectionSource b)) /\
  field data "detection" "commit_age" = Ok (JStr (commitAge b)) /\
  field data "investigation" "usage_evidence" = Ok (JStr (usageEvidence b)) /\
  field data "investigation" "rotation_status" = Ok (JStr (rotationStatus b)) /\
  field data "investigation" "impact_radius" = Ok (JStr (impactRadius b)) /\
  field data "investigation" "similar_past_incidents" = Ok (JStr (similarPastIncidents b)).

(** The six facts the decision engine reads are present, as strings. *)
Definition engine_facts (data : json) (b : FactBundle) : Prop :=
  field data "investigation" "rotation_status" = Ok (JStr (rotationStatus b)) /\
  field data "repo_details" "type" = Ok (JStr (repoType b)) /\
  field data "investigation" "usage_evidence" = Ok (JStr (usageEvidence b)) /\
  field data "repo_details" "criticality" = Ok (JStr (criticality b)) /\
  field data "repo_details" "exposure" = Ok (JStr (exposure b)) /\
  field data "investigation" "similar_past_incidents" = Ok (JStr (similarPastIncidents b)).

(** ** The canonical rule list, as the design document words it *)

Module Canonical.

Definition isActiveUsage (b : FactBundle) : bool :=
  contains "Active usage" (usageEvidence b).
Definition isHighCriticality (b : FactBundle) : bool :=
  contains "P0" (criticality b) || contains "P1" (criticality b).
Definition isPublic (b : FactBundle) : bool :=
  contains "Public" (exposure b).
Definition isTestSuite (b : FactBundle) : bool :=
  bool_decide (repoType b = "Test/QA Suite").
Definition isArchived (b : FactBundle) : bool :=
  contains "Deprecated" (repoType b) || contains "Archived" (repoType b).
Definition hasRotation (s : string) (b : FactBundle) : bool :=
  bool_decide (rotationStatus b = s).
Definition flagsFrequentFP (b : FactBundle) : bool :=
  bool_decide (similarPastIncidents b = "Frequent False Positives in this file").

Definition rule1 (b : FactBundle) : bool :=
  hasRotation "Revoked" b || hasRotation "Already Rotated" b.
Definition rule2 (b : FactBundle) : bool :=
  hasRotation "Invalid" b.
Definition rule3 (b : FactBundle) : bool :=
  isArchived b.
Definition rule4 (b : FactBundle) : bool :=
  isTestSuite b && flagsFrequentFP b && negb (isActiveUsage b).
Definition rule5 (b : FactBundle) : bool :=
  hasRotation "Active/Valid" b && isActiveUsage b.
Definition rule6 (b : FactBundle) : bool :=
  hasRotation "Active/Valid" b && isHighCriticality b && isPublic b.
Definition rule7 (b : FactBundle) : bool :=
  hasRotation "Active/Valid" b.
Definition rule8 (b : FactBundle) : bool :=
  true.

(** Rules 1 to 8 in priority order, each with its label. *)
Definition rules : list ((FactBundle -> bool) * Label) :=
  [ (rule1, Mitigated);
    (rule2, FalsePositive);
    (rule3, Suppressed);
    (rule4, FalsePositive);
    (rule5, Confirmed);
    (rule6, Confirmed);
    (rule7, Open);
    (rule8, Open) ].

(** First match wins: the rules after the first one that holds are not
    looked at.  [None] when no rule holds. *)
Fixpoint first_match (rs : list ((FactBundle -> bool) * Label)) (b : FactBundle)
  : option Label :=
  match rs with
  | [] => None
  | (p, l) :: rest => if p b then Some l else first_match rest b
  end.

Definition Evaluate (b : FactBundle) : Label :=
  default Open (first_match rules b).

End Canonical.

(** ** Tickets and the report the design document asks for *)

(** A ticket as the validator sees it: an identifier (any JSON value), the
    facts, and the recorded label. *)
Record Ticket : Type := {
  t_id : json;
  t_facts : FactBundle;
  t_label : string
}.

Definition relabel (l : string) (t : Ticket) : Ticket :=
  {| t_id := t_id t; t_facts := t_facts t; t_label := l |}.

(** The record [j] is a well-formed encoding of the ticket [t]. *)
Definition is_ticket (j : json) (t : Ticket) : Prop :=
  subscript j "ticket_id" = Ok (t_id t) /\
  (exists data, subscript j "data" = Ok data /\ engine_facts data (t_facts t)) /\
  subscript j "label" = Ok (JStr (t_label t)).

(** The label the engine computes for the ticket. *)
Definition expected_of (t : Ticket) : string :=
  label_str (Canonical.Evaluate (t_facts t)).

(** The recorded label matches the computed one, letter case aside. *)
Definition agrees (t : Ticket) : bool :=
  bool_decide (lower (expected_of t) = lower (t_label t)).

(** The diagnostic record of a mismatching ticket on line [n]. *)
Definition entry (n : nat) (t : Ticket) : Validate.Mismatch :=
  {| Validate.line := n;
     Validate.ticket_id := t_id t;
     Validate.expected := expected_of t;
     Validate.actual := t_label t;
     Validate.rotation_status := JStr (rotationStatus (t_facts t));
     Validate.repo_type := JStr (repoType (t_facts t));
     Validate.usage := JStr (usageEvidence (t_facts t));
     Validate.criticality := JStr (criticality (t_facts t));
     Validate.past_incidents := JStr (similarPastIncidents (t_facts t)) |}.

(** The mismatch list the design document asks for, over a corpus given as
    one optional ticket per line ([None] for a blank line), the first line
    being line [n]: one entry per mismatching ticket, in corpus order. *)
Fixpoint mismatch_list (n : nat) (recs : list (option Ticket))
  : list Validate.Mismatch :=
  match recs with
  | [] => []
  | None :: rest => mismatch_list (S n) rest
  | Some t :: rest =>
    (if agrees t then [] else [entry n t]) ++ mismatch_list (S n) rest
  end.

Fixpoint count_tickets (recs : list (option Ticket)) : nat :=
  match recs with
  | [] => 0
  | None :: rest => count_tickets rest
  | Some _ :: rest => S (count_tickets rest)
  end.

Fixpoint count_agreeing (recs : list (option Ticket)) : nat :=
  match recs with
  | [] => 0
  | None :: rest => count_agreeing rest
  | Some t :: rest => (if agrees t then 1 else 0) + count_agreeing rest
  end.

(** The tickets recorded with the label [s] whose agreement with the engine
    is [ok]. *)
Fixpoint count_label (ok : bool) (s : string) (recs : list (option Ticket)) : nat :=
  match recs with
  | [] => 0
  | None :: rest => count_label ok s rest
  | Some t :: rest =>
    (if bool_decide (t_label t = s) && bool_decide (agrees t = ok) then 1 else 0)
    + count_label ok s rest
  end.

(** Every recorded label is the label the engine computes. *)
Definition consistent (r : option Ticket) : Prop :=
  match r with
  | None => True
  | Some t => t_label t = expected_of t
  end.

(** The wire format of a ticket record. *)
Definition ticket_record (id snippet : string) (b : FactBundle)
  (label comment : string) : json :=
  JObj (list_to_map [
    ("ticket_id", JStr id);
    ("data", bundle_data snippet b);
    ("label", JStr label);
    ("ideal_llm_comment", JStr comment)]).

(** A stand-in for [json.loads] that knows the lines of a table and rejects
    every other text. *)
Fixpoint table_loads (table : list (string * json)) (s : string) : result json :=
  match table with
  | [] => Raise (JSONDecodeError "Expecting value" 0)
  | (k, v) :: rest => if bool_decide (k = s) then Ok v else table_loads rest s
  end.

(** The line [ln] is blank, or parses to a well-formed record of the
    ticket. *)
Definition parses (is_blank : string -> bool) (json_loads : string -> result json)
  (ln : string) (r : option Ticket) : Prop :=
  match r with
  | None => is_blank ln = true
  | Some t =>
    is_blank ln = false /\
    exists j, json_loads ln = Ok j /\ is_ticket j t
  end.

(** ** Malformed records *)





(** ** The comment layout *)

(** The comment layout of the design document: four sections, a blank line
    between consecutive sections, the clauses of the reasoning joined by
    single spaces. *)
Module Layout.

Definition headline (b : FactBundle) : string :=
  "Automated analysis: " +:+ category b +:+ " detected in " +:+ repoType b +:+ ".".

Definition context (b : FactBundle) : string :=
  "Context:" +:+ nl +:+
  "- Usage: " +:+ usageEvidence b +:+ nl +:+
  "- Status: " +:+ rotationStatus b +:+ nl +:+
  "- Criticality: " +:+ criticality b +:+ nl +:+
  "- Detection Source: " +:+ detectionSource b.

Definition recommendation (label : string) : string :=
  "Recommendation: Mark as " +:+ label +:+ ".".

Definition reasoning (clauses : list string) : string :=
  "Reasoning: " +:+ join " " clauses.

Definition comment (b : FactBundle) (label : string) (clauses : list string)
  : string :=
  join (nl +:+ nl)
    [headline b; context b; recommendation label; reasoning clauses].

End Layout.

(** ** Scenarios and a sample corpus *)

(** The first scenario of the design document: a live AWS key in a public
    production service, with usage in the last hour. *)
Definition scenario_prod : FactBundle :=
  {| category := "AWS Secret Access Key";
     repoType := "Prod Microservice";
     exposure := "Public (Open Source)";
     criticality := "Critical (P0 - Customer Data)";
     detectionSource := "Gitleaks";
     commitAge := "Fresh (< 24h)";
     usageEvidence := "Active usage in CloudTrail/Logs (Last 1h)";
     rotationStatus := "Active/Valid";
     impactRadius := "Single Service";
     similarPastIncidents := "None" |}.

Definition with_rotation (r : string) (b : FactBundle) : FactBundle :=
  {| category := category b;
     repoType := repoType b;
     exposure := exposure b;
     criticality := criticality b;
     detectionSource := detectionSource b;
     commitAge := commitAge b;
     usageEvidence := usageEvidence b;
     rotationStatus := r;
     impactRadius := impactRadius b;
     similarPastIncidents := similarPastIncidents b |}.

Definition with_repo_type (t : string) (b : FactBundle) : FactBundle :=
  {| category := category b;
     repoType := t;
     exposure := exposure b;
     criticality := criticality b;
     detectionSource := detectionSource b;
     commitAge := commitAge b;
     usageEvidence := usageEvidence b;
     rotationStatus := rotationStatus b;
     impactRadius := impactRadius b;
     similarPastIncidents := similarPastIncidents b |}.

(** A test-suite bundle with a history of false positives and active
    usage. *)
Definition scenario_test_active : FactBundle :=
  {| category := "AWS Secret Access Key";
     repoType := "Test/QA Suite";
     exposure := "Private (Internal)";
     criticality := "Low (P3 - Sandbox)";
     detectionSource := "Gitleaks";
     commitAge := "Fresh (< 24h)";
     usageEvidence := "Active usage in CloudTrail/Logs (Last 1h)";
     rotationStatus := "Active/Valid";
     impactRadius := "Single Service";
     similarPastIncidents := "Frequent False Positives in this file" |}.

(** The third scenario: a test suite with a history of false positives and
    no usage. *)
Definition scenario_test_unused : FactBundle :=
  {| category := "AWS Secret Access Key";
     repoType := "Test/QA Suite";
     exposure := "Private (Internal)";
     criticality := "Low (P3 - Sandbox)";
     detectionSource := "Gitleaks";
     commitAge := "Fresh (< 24h)";
     usageEvidence := "No usage found (90d+)";
     rotationStatus := "Active/Valid";
     impactRadius := "Single Service";
     similarPastIncidents := "Frequent False Positives in this file" |}.

(** The fourth scenario: a live key in internal tooling, every other signal
    neutral. *)
Definition scenario_tooling : FactBundle :=
  {| category := "AWS Secret Access Key";
     repoType := "Internal Tooling";
     exposure := "Private (Internal)";
     criticality := "Low (P3 - Sandbox)";
     detectionSource := "Gitleaks";
     commitAge := "Fresh (< 24h)";
     usageEvidence := "Unable to verify";
     rotationStatus := "Active/Valid";
     impactRadius := "Single Service";
     similarPastIncidents := "None" |}.

(** Facts that are all present, with a number where the criticality
    should be a string. *)
Definition mistyped_data : json :=
  JObj (list_to_map [
    ("repo_details", JObj (list_to_map [
        ("type", JStr "Internal Tooling");
        ("exposure", JStr "Private (Internal)");
        ("criticality", JInt 0)]));
    ("investigation", JObj (list_to_map [
        ("usage_evidence", JStr "Unable to verify");
        ("rotation_status", JStr "Active/Valid");
        ("similar_past_incidents", JStr "None")]))]).

Definition sample_t1 : Ticket :=
  {| t_id := JStr "SEC-10001"; t_facts := scenario_prod; t_label := "Confirmed" |}.

(** The recorded label is right, letter case aside. *)
Definition sample_t2 : Ticket :=
  {| t_id := JStr "SEC-10002"; t_facts := scenario_test_active;
     t_label := "CONFIRMED" |}.

(** The recorded label is wrong: the engine says Mitigated. *)
Definition sample_t3 : Ticket :=
  {| t_id := JStr "SEC-10003"; t_facts := with_rotation "Revoked" scenario_prod;
     t_label := "Open" |}.

Definition record_of (t : Ticket) (id : string) : json :=
  ticket_record id "AKIA****" (t_facts t) (t_label t) "Automated analysis".

(** A record without [data], one without [ticket_id] and [category], and
    the records of the three tickets. *)
Definition sample_table : list (string * json) :=
  [ ("<record 1>", record_of sample_t1 "SEC-10001");
    ("<record 2>", record_of sample_t2 "SEC-10002");
    ("<record 3>", record_of sample_t3 "SEC-10003");
    ("<record 1, open>", record_of (relabel "Open" sample_t1) "SEC-10001");
    ("<no data>", JObj (list_to_map [("ticket_id", JStr "SEC-10004");
                                     ("label", JStr "Open")]));
    ("<no ticket id>",
     JObj (list_to_map [
       ("data", JObj (list_to_map [
          ("repo_details", JObj (list_to_map [
             ("type", JStr "Internal Tooling");
             ("exposure", JStr "Private (Internal)");
             ("criticality", JStr "Low (P3 - Sandbox)")]));
          ("investigation", JObj (list_to_map [
             ("usage_evidence", JStr "No usage found (90d+)");
             ("rotation_status", JStr "Active/Valid");
             ("similar_past_incidents", JStr "None")]))]));
       ("label", JStr "Open")])) ].

Definition sample_loads : string -> result json := table_loads sample_table.

(** The white space of [str.strip()] below U+0080: tab to carriage return,
    the four separators and the space. *)
Definition ascii_space (c : ascii) : bool :=
  let n := nat_of_ascii c in
  (9 <=? n) && (n <=? 13) || (28 <=? n) && (n <=? 32).

(** The blank test on the sample lines, which are ASCII text. *)
Fixpoint ascii_blank (line : string) : bool :=
  match line with
  | EmptyString => true
  | String c rest => ascii_space c && ascii_blank rest
  end.

Definition blank : string := " " +:+ nl.

(** ** Definitions for the further properties *)

Definition five_labels : list string :=
  ["Mitigated"; "False Positive"; "Suppressed"; "Confirmed"; "Open"].

(** The lines of a corpus that hold a record: those the blank test
    [not line.strip()] does not skip. *)
Definition nonblank (is_blank : string -> bool) (lines : list string)
  : list string :=
  filter (fun ln => is_blank ln = false) lines.

(** The entry [m] is what the validator reports for the line [ln]: the line
    holds a record whose computed and recorded labels differ, letter case
    aside, and [m] carries the fields of that record. *)
Definition reported (is_blank : string -> bool)
  (json_loads : string -> result json) (ln : string)
  (m : Validate.Mismatch) : Prop :=
  is_blank ln = false /\
  exists ticket data,
    json_loads ln = Ok ticket /\
    subscript ticket "data" = Ok data /\
    Validate.apply_decision_logic data = Ok (Validate.expected m) /\
    subscript ticket "label" = Ok (JStr (Validate.actual m)) /\
    lower (Validate.expected m) <> lower (Validate.actual m) /\
    subscript ticket "ticket_id" = Ok (Validate.ticket_id m) /\
    field data "investigation" "rotation_status" = Ok (Validate.rotation_status m) /\
    field data "repo_details" "type" = Ok (Validate.repo_type m) /\
    field data "investigation" "usage_evidence" = Ok (Validate.usage m) /\
    field data "repo_details" "criticality" = Ok (Validate.criticality m) /\
    field data "investigation" "similar_past_incidents" = Ok (Validate.past_incidents m).

(** The sums of the per-label tally. *)
Definition sum_correct (by_label : gmap string Validate.Counts) : nat :=
  map_fold (fun _ c acc => Validate.correct c + acc) 0 by_label.

Definition sum_incorrect (by_label : gmap string Validate.Counts) : nat :=
  map_fold (fun _ c acc => Validate.incorrect c + acc) 0 by_label.

(** Merging the report of a second part of a corpus into the report of the
    first part, [k] lines long: counters add up, label by label too, and
    the line numbers of the second part move by [k]. *)
Definition add_counts (c1 c2 : Validate.Counts) : option Validate.Counts :=
  Some {| Validate.correct := Validate.correct c1 + Validate.correct c2;
          Validate.incorrect := Validate.incorrect c1 + Validate.incorrect c2 |}.

Definition shift_line (k : nat) (m : Validate.Mismatch) : Validate.Mismatch :=
  {| Validate.line := k + Validate.line m;
     Validate.ticket_id := Validate.ticket_id m;
     Validate.expected := Validate.expected m;
     Validate.actual := Validate.actual m;
     Validate.rotation_status := Validate.rotation_status m;
     Validate.repo_type := Validate.repo_type m;
     Validate.usage := Validate.usage m;
     Validate.criticality := Validate.criticality m;
     Validate.past_incidents := Validate.past_incidents m |}.

Definition merge_reports (k : nat) (r1 r2 : Validate.Results) : Validate.Results :=
  {| Validate.total := Validate.total r1 + Validate.total r2;
     Validate.matches := Validate.matches r1 + Validate.matches r2;
     Validate.mismatches :=
       Validate.mismatches r1 ++ map (shift_line k) (Validate.mismatches r2);
     Validate.by_label :=
       union_with add_counts (Validate.by_label r1) (Validate.by_label r2) |}.

(** The ticket [j] is what the corrective tool writes for the record
    [ticket]: the same dictionary, with the label of the engine and the
    comment made for that label. *)
Definition fixed_ticket (str_of_other : json -> string) (ticket j : json) : Prop :=
  exists (m : gmap string json) data c comment,
    ticket = JObj m /\
    m !! "data" = Some data /\
    Fix.apply_decision_logic data = Ok c /\
    Fix.generate_comment str_of_other data c = Ok comment /\
    j = JObj (<["ideal_llm_comment" := JStr comment]> (<["label" := JStr c]> m)).

(** The line [ln] holds a record, and [j] is what the tool writes for it. *)
Definition fixes (json_loads : string -> result json) (str_of_other : json -> string)
  (ln : string) (j : json) : Prop :=
  exists ticket, json_loads ln = Ok ticket /\ fixed_ticket str_of_other ticket j.

(** The line [ln] reads back as the ticket [j]. *)
Definition reads_back (is_blank : string -> bool)
  (json_loads : string -> result json) (ln : string) (j : json)
  : Prop :=
  is_blank ln = false /\ json_loads ln = Ok j.



(** The clauses [generate_reasoning] of the generator appends to its list
    of reasons, with the facts of [b] filled in. *)
Definition reasoning_clauses (b : FactBundle) : list string :=
  [ "Credential has already been rotated; new key is in place.";
    "Credential has been revoked and is no longer valid.";
    "No further action required. Verify rotation in key management system.";
    "High-confidence active threat detected.";
    "Recent usage logs confirm the credential is actively being used.";
    "Public exposure increases risk of credential harvesting.";
    "Repository handles customer data - immediate rotation required.";
    "Impact radius: " +:+ impactRadius b +:+ ". Initiate incident response protocol.";
    "Valid credential requiring remediation.";
    "Credential is still active and has not been rotated.";
    "Found in " +:+ repoType b +:+ " - prioritize based on " +:+ criticality b +:+ ".";
    "Assign to repository owner for rotation.";
    "Repository is archived/deprecated with no active deployments.";
    "No usage detected in 90+ days.";
    "Test environment with no production impact.";
    "Risk accepted per security policy. Document and close.";
    "Credential validation failed - not a valid secret format.";
    "File has history of false positive detections.";
    "Test fixture or example data - not a real credential.";
    "No remediation required. Consider adding to allowlist." ].

(** ** More samples *)

(** A record whose label is [null]. *)
Definition null_label_record : json :=
  JObj (list_to_map [
    ("ticket_id", JStr "SEC-10005");
    ("data", bundle_data "AKIA****" scenario_prod);
    ("label", JNull)]).

(** The text of a value that is not a string, in the samples. *)
Definition sample_str (v : json) : string := "?".

(** A corpus for the corrective tool, and what the tool writes for it. *)
Definition fix_corpus : list string := ["<record 3>"; blank; "<record 2>"].

Definition fix_run : Output * result nat :=
  Eval vm_compute in
    Fix.fix_dataset ascii_blank sample_loads sample_str fix_corpus
      "security_tickets_fixed.jsonl" no_output.

Definition fixed_tickets : list json := written (fst fix_run).

(** The sample table, the record with the [null] label, and the lines of
    the fixed file. *)
Definition extended_loads : string -> result json :=
  table_loads (sample_table ++
    [ ("<null label>", null_label_record);
      ("<fixed 3>", nth 0 fixed_tickets JNull);
      ("<fixed 2>", nth 1 fixed_tickets JNull) ]).

(** A draw that takes the first of the labels it is offered. *)
Definition first_choice (l : list string) : string :=
  match l with
  | [] => EmptyString
  | x :: _ => x
  end.

(** * Properties *)

(** ** The decision engine *)

Section Engine.

Variables (data : json) (b : FactBundle).
Hypothesis facts : engine_facts data b.

(** Case analysis on every test the engine makes on the facts. *)
Ltac split_tests :=
  repeat match goal with
         | |- context [bool_decide ?P] => destruct (bool_decide P) eqn:?; simpl
         | |- context [contains ?n ?h] => destruct (contains n h) eqn:?; simpl
         end.

Ltac read_facts :=
  destruct facts as (-> & -> & -> & -> & -> & ->); simpl.

Lemma validate_engine_canonical :
  Validate.apply_decision_logic data = Ok (label_str (Canonical.Evaluate b)).
Proof.
  unfold Validate.apply_decision_logic. read_facts.
  unfold Canonical.Evaluate, Canonical.rules, Canonical.first_match,
    Canonical.rule1, Canonical.rule2, Canonical.rule3, Canonical.rule4,
    Canonical.rule5, Canonical.rule6, Canonical.rule7, Canonical.rule8,
    Canonical.hasRotation, Canonical.isArchived, Canonical.isTestSuite,
    Canonical.flagsFrequentFP, Canonical.isActiveUsage,
    Canonical.isHighCriticality, Canonical.isPublic.
  split_tests; reflexivity.
Qed.

Lemma fix_engine_canonical :
  Fix.apply_decision_logic data = Ok (label_str (Canonical.Evaluate b)).
Proof.
  unfold Fix.apply_decision_logic. read_facts.
  unfold Canonical.Evaluate, Canonical.rules, Canonical.first_match,
    Canonical.rule1, Canonical.rule2, Canonical.rule3, Canonical.rule4,
    Canonical.rule5, Canonical.rule6, Canonical.rule7, Canonical.rule8,
    Canonical.hasRotation, Canonical.isArchived, Canonical.isTestSuite,
    Canonical.flagsFrequentFP, Canonical.isActiveUsage,
    Canonical.isHighCriticality, Canonical.isPublic.
  split_tests; reflexivity.
Qed.

End Engine.

(** The label [first_match] returns is the label of a rule that holds and
    that no holding rule precedes. *)
Lemma first_match_first rs b l :
  Canonical.first_match rs b = Some l ->
  exists pre p post,
    rs = pre ++ (p, l) :: post /\ p b = true /\
    Forall (fun r => fst r b = false) pre.
Proof.
  induction rs as [|[p l'] rs IH]; simpl; [discriminate|].
  destruct (p b) eqn:Hp.
  - intros [= ->]. exists [], p, rs. repeat split; [assumption | constructor].
  - intros H. destruct (IH H) as (pre & q & post & -> & Hq & Hpre).
    exists ((p, l') :: pre), q, post. repeat split; [assumption|].
    constructor; assumption.
Qed.

(** The rule list always decides: its last rule holds of every bundle. *)
Lemma evaluate_first_match b :
  Canonical.first_match Canonical.rules b = Some (Canonical.Evaluate b).
Proof.
  unfold Canonical.Evaluate, Canonical.rules, Canonical.first_match,
    Canonical.rule8.
  repeat match goal with
         | |- context [if ?r b then _ else _] => destruct (r b); [reflexivity|]
         end.
  reflexivity.
Qed.

(** The second disjunct test on the repository type cannot raise once the
    first one went through. *)
Lemma prod_or_monolith_total v archived :
  py_or (str_in "Deprecated" v) (str_in "Archived" v) = Ok archived ->
  exists p, py_or (str_in "Prod" v) (str_in "Monolith" v) = Ok p.
Proof.
  destruct v; simpl; try discriminate; intros _; unfold py_or, bind;
    match goal with
    | |- context [if ?c then _ else _] => destruct c; eauto
    end.
Qed.

Lemma engines_agree data :
  Validate.apply_decision_logic data = Fix.apply_decision_logic data.
Proof.
  unfold Validate.apply_decision_logic, Fix.apply_decision_logic.
  repeat match goal with
         | |- bind ?r _ = bind ?r _ => destruct r as [?|?]; simpl; [|reflexivity]
         end.
  repeat match goal with
         | |- (if ?c then _ else _) = (if ?c then _ else _) =>
             destruct c; [reflexivity|]
         end.
  match goal with
  | |- bind ?r _ = bind ?r _ =>
      destruct r as [archived|?] eqn:Harch; simpl; [|reflexivity]
  end.
  destruct archived; [reflexivity|].
  repeat match goal with
         | |- bind ?r _ = bind ?r _ => destruct r as [?|?]; simpl; [|reflexivity]
         end.
  destruct (prod_or_monolith_total _ _ Harch) as [p ->]. reflexivity.
Qed.

Lemma bundle_data_has_facts snippet b : has_facts (bundle_data snippet b) b.
Proof. repeat split. Qed.

Lemma has_facts_engine data b : has_facts data b -> engine_facts data b.
Proof. unfold has_facts, engine_facts. tauto. Qed.

Lemma bundle_data_engine_facts snippet b : engine_facts (bundle_data snippet b) b.
Proof. apply has_facts_engine, bundle_data_has_facts. Qed.

(** C1. On every fact bundle both copies of the decision engine return the
    label of the canonical rule list: the label of the first of rules 1 to
    8, in that order, whose predicate holds of the bundle. *)
Theorem engine_is_canonical_rule_list data b :
  engine_facts data b ->
  Validate.apply_decision_logic data = Ok (label_str (Canonical.Evaluate b)) /\
  Fix.apply_decision_logic data = Ok (label_str (Canonical.Evaluate b)) /\
  exists pre p post,
    Canonical.rules = pre ++ (p, Canonical.Evaluate b) :: post /\
    p b = true /\
    Forall (fun r => fst r b = false) pre.
Proof.
  intros H. split; [|split].
  - apply validate_engine_canonical, H.
  - apply fix_engine_canonical, H.
  - apply first_match_first, evaluate_first_match.
Qed.

Lemma engine_is_canonical_rule_list_witness :
  Validate.apply_decision_logic (bundle_data "AKIA****" scenario_prod) = Ok "Confirmed" /\
  Fix.apply_decision_logic (bundle_data "AKIA****" scenario_prod) = Ok "Confirmed".
Proof.
  assert (F : engine_facts (bundle_data "AKIA****" scenario_prod) scenario_prod)
    by (repeat split; reflexivity).
  destruct (engine_is_canonical_rule_list _ _ F) as (Hv & Hf & _).
  split; [exact Hv | exact Hf].
Defined.

(** The four scenarios of the design document. *)
Example scenario_prod_confirmed :
  Validate.apply_decision_logic (bundle_data "AKIA****" scenario_prod)
  = Ok "Confirmed".
Proof. reflexivity. Qed.

Example scenario_rotated_mitigated :
  Validate.apply_decision_logic
    (bundle_data "AKIA****" (with_rotation "Already Rotated" scenario_prod))
  = Ok "Mitigated".
Proof. reflexivity. Qed.

Example scenario_test_unused_false_positive :
  Validate.apply_decision_logic (bundle_data "AKIA****" scenario_test_unused)
  = Ok "False Positive".
Proof. reflexivity. Qed.

Example scenario_tooling_open :
  Validate.apply_decision_logic (bundle_data "AKIA****" scenario_tooling)
  = Ok "Open".
Proof. reflexivity. Qed.

(** What the rule list gives when a given rule is the first that holds. *)
Lemma evaluate_rule1 b : Canonical.rule1 b = true -> Canonical.Evaluate b = Mitigated.
Proof.
  intros H. unfold Canonical.Evaluate, Canonical.rules, Canonical.first_match.
  rewrite H. reflexivity.
Qed.

(** C4. A bundle whose rotation status is Revoked or Already Rotated is
    labelled Mitigated by both copies of the engine, whatever its other
    fields are. *)
Theorem revoked_or_rotated_is_mitigated data b :
  engine_facts data b ->
  rotationStatus b = "Revoked" \/ rotationStatus b = "Already Rotated" ->
  Validate.apply_decision_logic data = Ok "Mitigated" /\
  Fix.apply_decision_logic data = Ok "Mitigated".
Proof.
  intros F H.
  assert (E : Canonical.Evaluate b = Mitigated).
  { apply evaluate_rule1. unfold Canonical.rule1, Canonical.hasRotation.
    destruct H as [-> | ->]; reflexivity. }
  rewrite (validate_engine_canonical _ _ F), (fix_engine_canonical _ _ F), E.
  split; reflexivity.
Qed.

(** The adversarial bundle: public, P0, active usage, yet revoked. *)
Lemma revoked_or_rotated_is_mitigated_witness :
  engine_facts (bundle_data "AKIA****" (with_rotation "Revoked" scenario_prod))
               (with_rotation "Revoked" scenario_prod) /\
  (rotationStatus (with_rotation "Revoked" scenario_prod) = "Revoked" \/
   rotationStatus (with_rotation "Revoked" scenario_prod) = "Already Rotated") /\
  Validate.apply_decision_logic
    (bundle_data "AKIA****" (with_rotation "Revoked" scenario_prod)) = Ok "Mitigated" /\
  Fix.apply_decision_logic
    (bundle_data "AKIA****" (with_rotation "Revoked" scenario_prod)) = Ok "Mitigated".
Proof.
  split; [repeat split; reflexivity|].
  split; [left; reflexivity|].
  apply (revoked_or_rotated_is_mitigated _ (with_rotation "Revoked" scenario_prod)).
  - repeat split; reflexivity.
  - left; reflexivity.
Defined.

(** C5. A bundle whose repository type names a deprecated or archived
    repository, and whose rotation status is none of Revoked, Already Rotated
    and Invalid, is labelled Suppressed; Active/Valid status and active usage
    do not change that. *)
Theorem archived_is_suppressed data b :
  engine_facts data b ->
  contains "Deprecated" (repoType b) = true \/ contains "Archived" (repoType b) = true ->
  rotationStatus b <> "Revoked" ->
  rotationStatus b <> "Already Rotated" ->
  rotationStatus b <> "Invalid" ->
  Validate.apply_decision_logic data = Ok "Suppressed" /\
  Fix.apply_decision_logic data = Ok "Suppressed".
Proof.
  intros F H N1 N2 N3.
  assert (E : Canonical.Evaluate b = Suppressed).
  { unfold Canonical.Evaluate, Canonical.rules, Canonical.first_match,
      Canonical.rule1, Canonical.rule2, Canonical.rule3,
      Canonical.hasRotation, Canonical.isArchived.
    rewrite !bool_decide_eq_false_2 by assumption. simpl.
    destruct H as [-> | ->]; [reflexivity|].
    rewrite orb_true_r. reflexivity. }
  rewrite (validate_engine_canonical _ _ F), (fix_engine_canonical _ _ F), E.
  split; reflexivity.
Qed.

(** An archived repository with a live key in active use. *)
Lemma archived_is_suppressed_witness :
  Validate.apply_decision_logic
    (bundle_data "AKIA****" (with_repo_type "Deprecated/Archived" scenario_prod))
    = Ok "Suppressed" /\
  Fix.apply_decision_logic
    (bundle_data "AKIA****" (with_repo_type "Deprecated/Archived" scenario_prod))
    = Ok "Suppressed".
Proof.
  apply (archived_is_suppressed _ (with_repo_type "Deprecated/Archived" scenario_prod)).
  - repeat split; reflexivity.
  - left; reflexivity.
  - discriminate.
  - discriminate.
  - discriminate.
Defined.




(** C7. On every bundle whose facts are present as strings, whatever the
    strings are, the engine returns one of the five labels and raises
    nothing; when none of rules 1 to 7 holds, as for an unrecognized
    rotation status without archival or test-suite signal, the label is
    Open. *)
Theorem engine_total data b :
  engine_facts data b ->
  (exists l : Label, Validate.apply_decision_logic data = Ok (label_str l)) /\
  (Canonical.rule1 b = false -> Canonical.rule2 b = false ->
   Canonical.rule3 b = false -> Canonical.rule4 b = false ->
   Canonical.rule5 b = false -> Canonical.rule6 b = false ->
   Canonical.rule7 b = false ->
   Validate.apply_decision_logic data = Ok "Open").
Proof.
  intros F. rewrite (validate_engine_canonical _ _ F). split.
  - eexists; reflexivity.
  - intros R1 R2 R3 R4 R5 R6 R7.
    unfold Canonical.Evaluate, Canonical.rules, Canonical.first_match.
    rewrite R1, R2, R3, R4, R5, R6, R7. reflexivity.
Qed.

(** A rotation status the engine does not know. *)
Lemma engine_total_witness :
  Validate.apply_decision_logic
    (bundle_data "AKIA****" (with_rotation "Pending Review" scenario_prod)) = Ok "Open".
Proof.
  apply (engine_total _ (with_rotation "Pending Review" scenario_prod));
    first [repeat split; reflexivity | reflexivity].
Defined.

(** Outside the bundles of the data model the engine is partial: a fact
    that is not a string can make a substring test raise. *)
Example engine_raises_on_mistyped_fact :
  Validate.apply_decision_logic mistyped_data = Raise (TypeError "int").
Proof. reflexivity. Qed.

(** C10. The two copies of the decision engine agree on every input, be it
    a well-formed fact dictionary or not: same label, or same exception. *)
Theorem engine_copies_equal data :
  Validate.apply_decision_logic data = Fix.apply_decision_logic data.
Proof. apply engines_agree. Qed.

(** ** The consistency validator *)

Section ValidatorProperties.

Variable is_blank : string -> bool.
Variable json_loads : string -> result json.

Lemma validate_line_blank n ln r :
  parses is_blank json_loads ln None -> Validate.validate_line is_blank json_loads n ln r = Ok r.
Proof. simpl. intros H. unfold Validate.validate_line. rewrite H. reflexivity. Qed.

Lemma validate_line_match n ln t r :
  parses is_blank json_loads ln (Some t) -> agrees t = true ->
  Validate.validate_line is_blank json_loads n ln r =
    Ok {| Validate.total := S (Validate.total r);
          Validate.matches := S (Validate.matches r);
          Validate.mismatches := Validate.mismatches r;
          Validate.by_label :=
            Validate.incr_correct (Validate.by_label r) (t_label t) |}.
Proof.
  intros (Hb & j & Hj & Hid & (data & Hd & F) & Hl) Ha.
  unfold Validate.validate_line. rewrite Hb, Hj. simpl.
  rewrite Hd. simpl. rewrite (validate_engine_canonical _ _ F). simpl.
  rewrite Hl. simpl. unfold agrees, expected_of in Ha. rewrite Ha. reflexivity.
Qed.

Lemma validate_line_mismatch n ln t r :
  parses is_blank json_loads ln (Some t) -> agrees t = false ->
  Validate.validate_line is_blank json_loads n ln r =
    Ok {| Validate.total := S (Validate.total r);
          Validate.matches := Validate.matches r;
          Validate.mismatches := Validate.mismatches r ++ [entry n t];
          Validate.by_label :=
            Validate.incr_incorrect (Validate.by_label r) (t_label t) |}.
Proof.
  intros (Hb & j & Hj & Hid & (data & Hd & F) & Hl) Ha.
  unfold Validate.validate_line. rewrite Hb, Hj. simpl.
  rewrite Hd. simpl. rewrite (validate_engine_canonical _ _ F). simpl.
  rewrite Hl. simpl. unfold agrees, expected_of in Ha. rewrite Ha.
  rewrite Hid. simpl.
  destruct F as (-> & -> & -> & -> & _ & ->). reflexivity.
Qed.

Lemma counts_of_incr_correct bl k s :
  Validate.counts_of (Validate.incr_correct bl k) s =
  if decide (k = s)
  then {| Validate.correct := S (Validate.correct (Validate.counts_of bl k)); Validate.incorrect := Validate.incorrect (Validate.counts_of bl k) |}
  else Validate.counts_of bl s.
Proof.
  unfold Validate.incr_correct, Validate.counts_of. rewrite lookup_insert.
  destruct (decide (k = s)); reflexivity.
Qed.

Lemma counts_of_incr_incorrect bl k s :
  Validate.counts_of (Validate.incr_incorrect bl k) s =
  if decide (k = s)
  then {| Validate.correct := Validate.correct (Validate.counts_of bl k); Validate.incorrect := S (Validate.incorrect (Validate.counts_of bl k)) |}
  else Validate.counts_of bl s.
Proof.
  unfold Validate.incr_incorrect, Validate.counts_of. rewrite lookup_insert.
  destruct (decide (k = s)); reflexivity.
Qed.

(** The loop on a well-formed corpus: it ends with a report, whose
    counters, mismatch list and per-label tally grow as the design document
    says. *)
Lemma validate_loop_report lines recs :
  Forall2 (parses is_blank json_loads) lines recs ->
  forall n r,
  exists r',
    Validate.validate_loop is_blank json_loads n lines r = Ok r' /\
    Validate.total r' = Validate.total r + count_tickets recs /\
    Validate.matches r' = Validate.matches r + count_agreeing recs /\
    Validate.mismatches r' = Validate.mismatches r ++ mismatch_list n recs /\
    forall s,
      Validate.correct (Validate.counts_of (Validate.by_label r') s)
      = Validate.correct (Validate.counts_of (Validate.by_label r) s) + count_label true s recs /\
      Validate.incorrect (Validate.counts_of (Validate.by_label r') s)
      = Validate.incorrect (Validate.counts_of (Validate.by_label r) s) + count_label false s recs.
Proof.
  induction 1 as [|ln rec lines recs Hp _ IH]; intros n r; simpl.
  - exists r. rewrite app_nil_r. repeat split; lia.
  - destruct rec as [t|].
    + destruct (agrees t) eqn:Ha.
      * rewrite (validate_line_match _ _ _ _ Hp Ha). simpl.
        edestruct IH as (r' & -> & Ht & Hm & Hl & Hb). exists r'.
        rewrite Ht, Hm, Hl. simpl.
        split; [reflexivity|]. split; [lia|]. split; [lia|].
        split; [reflexivity|]. intros s. destruct (Hb s) as [E1 E2].
        rewrite E1, E2. cbn [Validate.by_label]. rewrite counts_of_incr_correct.
        destruct (decide (t_label t = s)) as [->|Hne]; simpl.
        -- rewrite bool_decide_eq_true_2 by reflexivity. simpl. lia.
        -- rewrite (bool_decide_eq_false_2 _ Hne). simpl. lia.
      * rewrite (validate_line_mismatch _ _ _ _ Hp Ha). simpl.
        edestruct IH as (r' & -> & Ht & Hm & Hl & Hb). exists r'.
        rewrite Ht, Hm, Hl. simpl. rewrite <- app_assoc.
        split; [reflexivity|]. split; [lia|]. split; [lia|].
        split; [reflexivity|]. intros s. destruct (Hb s) as [E1 E2].
        rewrite E1, E2. cbn [Validate.by_label]. rewrite counts_of_incr_incorrect.
        destruct (decide (t_label t = s)) as [->|Hne]; simpl.
        -- rewrite bool_decide_eq_true_2 by reflexivity. simpl. lia.
        -- rewrite (bool_decide_eq_false_2 _ Hne). simpl. lia.
    + rewrite (validate_line_blank _ _ _ Hp). simpl.
      edestruct IH as (r' & -> & Ht & Hm & Hl & Hb). exists r'.
      rewrite Ht, Hm, Hl. repeat split; apply Hb.
Qed.

Lemma validate_loop_app l1 l2 : forall n r,
  Validate.validate_loop is_blank json_loads n (l1 ++ l2) r =
  let* r1 := Validate.validate_loop is_blank json_loads n l1 r in
  Validate.validate_loop is_blank json_loads (n + length l1) l2 r1.
Proof.
  induction l1 as [|ln l1 IH]; intros n r; simpl.
  - rewrite Nat.add_0_r. reflexivity.
  - destruct (Validate.validate_line is_blank json_loads n ln r) as [r1|e]; simpl;
      [|reflexivity].
    rewrite IH. replace (S n + length l1) with (n + S (length l1)) by lia.
    reflexivity.
Qed.

End ValidatorProperties.

(** The entries of [mismatch_list] are those of the mismatching tickets,
    each with its line number. *)
Lemma elem_of_mismatch_list m recs : forall n,
  m ∈ mismatch_list n recs <->
  exists i t, recs !! i = Some (Some t) /\ agrees t = false /\ m = entry (n + i) t.
Proof.
  induction recs as [|rec recs IH]; intros n; simpl.
  - split; [intros H; inversion H | intros (i & t & H & _); discriminate].
  - assert (Tail : m ∈ mismatch_list (S n) recs <->
              exists i t, (rec :: recs) !! S i = Some (Some t) /\
                          agrees t = false /\ m = entry (n + S i) t).
    { rewrite IH. split; intros (i & t & H1 & H2 & H3); exists i, t;
        (repeat split; [exact H1 | exact H2 |]);
        rewrite H3; f_equal; lia. }
    destruct rec as [t|].
    + rewrite elem_of_app, Tail. split.
      * intros [H | (i & t' & H)]; [|exists (S i), t'; exact H].
        destruct (agrees t) eqn:Ha; [inversion H|].
        apply list_elem_of_singleton in H. exists 0, t.
        rewrite Nat.add_0_r. repeat split; assumption.
      * intros ([|i] & t' & H1 & H2 & H3).
        -- left. injection H1 as ->. rewrite H2, H3, Nat.add_0_r.
           apply list_elem_of_singleton. reflexivity.
        -- right. exists i, t'. repeat split; assumption.
    + rewrite Tail. split.
      * intros (i & t' & H). exists (S i), t'. exact H.
      * intros ([|i] & t' & H1 & H2 & H3); [discriminate|].
        exists i, t'. repeat split; assumption.
Qed.

Lemma mismatch_list_sorted recs : forall n,
  StronglySorted lt (Validate.line <$> mismatch_list n recs) /\
  Forall (fun m => n <= Validate.line m) (mismatch_list n recs).
Proof.
  induction recs as [|rec recs IH]; intros n; simpl.
  - split; constructor.
  - destruct (IH (S n)) as [Hs Hf].
    assert (Hf' : Forall (fun m => n <= Validate.line m) (mismatch_list (S n) recs)).
    { eapply Forall_impl; [exact Hf|]. simpl. intros; lia. }
    destruct rec as [t|]; [|split; assumption].
    destruct (agrees t); simpl; [split; assumption|].
    split.
    + constructor; [assumption|]. apply Forall_fmap.
      eapply Forall_impl; [exact Hf|]. simpl. intros; lia.
    + constructor; [simpl; lia | assumption].
Qed.

(** Two of the five labels that agree letter case aside are the same. *)
Lemma lower_label_inj l1 l2 :
  lower (label_str l1) = lower (label_str l2) -> l1 = l2.
Proof. destruct l1, l2; intros H; first [reflexivity | discriminate H]. Qed.

Lemma mismatch_list_consistent recs : forall n,
  Forall consistent recs ->
  mismatch_list n recs = [] /\ count_agreeing recs = count_tickets recs.
Proof.
  induction recs as [|rec recs IH]; intros n H; simpl; [split; reflexivity|].
  inversion H as [|? ? Hc Hr]; subst.
  destruct (IH (S n) Hr) as [-> ->].
  destruct rec as [t|]; [|split; reflexivity].
  simpl in Hc. unfold agrees. rewrite Hc, bool_decide_eq_true_2 by reflexivity.
  split; reflexivity.
Qed.

Lemma count_tickets_app recs1 recs2 :
  count_tickets (recs1 ++ recs2) = count_tickets recs1 + count_tickets recs2.
Proof.
  induction recs1 as [|[t|] recs1 IH]; simpl; [reflexivity | rewrite IH; lia | exact IH].
Qed.

Lemma count_agreeing_app recs1 recs2 :
  count_agreeing (recs1 ++ recs2) = count_agreeing recs1 + count_agreeing recs2.
Proof.
  induction recs1 as [|[t|] recs1 IH]; simpl; [reflexivity | rewrite IH; lia | exact IH].
Qed.

Lemma mismatch_list_app recs1 recs2 : forall n,
  mismatch_list n (recs1 ++ recs2) =
  mismatch_list n recs1 ++ mismatch_list (n + length recs1) recs2.
Proof.
  induction recs1 as [|rec recs1 IH]; intros n; simpl.
  - rewrite Nat.add_0_r. reflexivity.
  - rewrite IH. replace (S n + length recs1) with (n + S (length recs1)) by lia.
    destruct rec; [rewrite app_assoc|]; reflexivity.
Qed.

(** C3. On a corpus whose lines are blank or well-formed records, the
    validator returns a report whose mismatch list has one entry for each
    ticket whose recorded label differs from the recomputed one after both
    are put in lower case, and no other entry; the entry carries the line
    number, the ticket id, the expected and the actual label, the rotation
    status, the repository type, the usage evidence, the criticality and the
    past-incidents flag; entries come in corpus order.  Every ticket is
    counted, and the agreeing ones are counted as matches. *)
Theorem validator_mismatch_report is_blank json_loads lines recs :
  Forall2 (parses is_blank json_loads) lines recs ->
  exists r,
    Validate.validate_dataset is_blank json_loads lines = Ok r /\
    Validate.mismatches r = mismatch_list 1 recs /\
    (forall m, m ∈ Validate.mismatches r <->
       exists i t, recs !! i = Some (Some t) /\
                   lower (expected_of t) <> lower (t_label t) /\
                   m = entry (S i) t) /\
    StronglySorted lt (Validate.line <$> Validate.mismatches r) /\
    Validate.total r = count_tickets recs /\
    Validate.matches r = count_agreeing recs.
Proof.
  intros H.
  destruct (validate_loop_report is_blank json_loads _ _ H 1 Validate.initial_results)
    as (r & Hr & Ht & Hc & Hm & _).
  simpl in Ht, Hc, Hm. exists r. split; [exact Hr|]. split; [exact Hm|].
  split; [|split; [|split; [exact Ht | exact Hc]]].
  - intros m. rewrite Hm, elem_of_mismatch_list.
    split; intros (i & t & H1 & H2 & H3); exists i, t;
      (repeat split; [exact H1 | | exact H3]).
    + unfold agrees in H2. apply bool_decide_eq_false in H2. exact H2.
    + unfold agrees. apply bool_decide_eq_false. exact H2.
  - rewrite Hm. apply mismatch_list_sorted.
Qed.

(** C2. On a corpus in which every recorded label is the label the engine
    computes, the validator returns a report with no mismatch, in which
    every record of the corpus is counted and counted as a match.  When the
    recorded label of one record is changed to another of the five labels,
    the report has exactly one mismatch entry; its expected label is the one
    the engine computes for that record and its actual label is the changed
    one; every record is still counted, and every record but the changed one
    as a match. *)
Theorem validator_correct is_blank json_loads lines recs :
  Forall2 (parses is_blank json_loads) lines recs ->
  Forall consistent recs ->
  (exists r,
     Validate.validate_dataset is_blank json_loads lines = Ok r /\
     Validate.mismatches r = [] /\
     Validate.matches r = Validate.total r /\
     Validate.total r = count_tickets recs) /\
  (forall pre t post l' lines',
     recs = pre ++ Some t :: post ->
     label_str l' <> t_label t ->
     Forall2 (parses is_blank json_loads) lines'
       (pre ++ Some (relabel (label_str l') t) :: post) ->
     exists r' m,
       Validate.validate_dataset is_blank json_loads lines' = Ok r' /\
       Validate.mismatches r' = [m] /\
       Validate.expected m = label_str (Canonical.Evaluate (t_facts t)) /\
       Validate.actual m = label_str l' /\
       Validate.ticket_id m = t_id t /\
       Validate.line m = S (length pre) /\
       Validate.total r' = count_tickets recs /\
       S (Validate.matches r') = count_tickets recs).
Proof.
  intros Hp Hc. split.
  - destruct (validate_loop_report is_blank json_loads _ _ Hp 1 Validate.initial_results)
      as (r & Hr & Ht & Hm & Hl & _).
    destruct (mismatch_list_consistent recs 1 Hc) as [E1 E2].
    exists r. split; [exact Hr|].
    simpl in Ht, Hm, Hl. rewrite Ht, Hm, Hl, E1, E2. repeat split; reflexivity.
  - intros pre t post l' lines' -> Hne Hp'.
    destruct (validate_loop_report is_blank json_loads _ _ Hp' 1 Validate.initial_results)
      as (r' & Hr & Hn & Hm & Hl & _).
    apply Forall_app in Hc as [Hpre Hpost].
    inversion Hpost as [|? ? Ht Hpost']; subst. simpl in Ht.
    assert (Ha : agrees (relabel (label_str l') t) = false).
    { unfold agrees, expected_of. simpl. apply bool_decide_eq_false.
      intros E. apply lower_label_inj in E. apply Hne.
      rewrite Ht. unfold expected_of. rewrite E. reflexivity. }
    exists r', (entry (S (length pre)) (relabel (label_str l') t)).
    split; [exact Hr|]. split; [|repeat split].
    + simpl in Hl. rewrite Hl, mismatch_list_app. simpl.
      destruct (mismatch_list_consistent pre 1 Hpre) as [-> _].
      destruct (mismatch_list_consistent post (S (S (length pre))) Hpost') as [-> _].
      rewrite Ha. reflexivity.
    + simpl in Hn. rewrite Hn, !count_tickets_app. reflexivity.
    + simpl in Hm. rewrite Hm, count_agreeing_app, count_tickets_app. simpl.
      rewrite Ha.
      destruct (mismatch_list_consistent pre 1 Hpre) as [_ ->].
      destruct (mismatch_list_consistent post 1 Hpost') as [_ ->].
      simpl. lia.
Qed.

(** ** Malformed records *)



Section MalformedRecords.

Variable is_blank : string -> bool.
Variable json_loads : string -> result json.



End MalformedRecords.

Ltac solve_parses :=
  repeat (apply List.Forall2_cons;
          [first [ reflexivity
                 | split; [reflexivity|]; eexists; split; [reflexivity|];
                   split; [reflexivity|];
                   split; [eexists; split; [reflexivity | repeat split; reflexivity]
                          | reflexivity] ]|]);
  apply List.Forall2_nil.

Lemma validator_mismatch_report_witness :
  exists r,
    Validate.validate_dataset ascii_blank sample_loads
      ["<record 1>"; blank; "<record 2>"; "<record 3>"] = Ok r /\
    Validate.mismatches r = [entry 4 sample_t3] /\
    Validate.total r = 3 /\
    Validate.matches r = 2.
Proof.
  assert (H : Forall2 (parses ascii_blank sample_loads)
                ["<record 1>"; blank; "<record 2>"; "<record 3>"]
                [Some sample_t1; None; Some sample_t2; Some sample_t3])
    by solve_parses.
  destruct (validator_mismatch_report _ _ _ _ H) as (r & Hr & Hm & _ & _ & Ht & Hc).
  exists r. repeat split; assumption.
Defined.

Lemma validator_correct_witness :
  (exists r,
     Validate.validate_dataset ascii_blank sample_loads ["<record 1>"; blank] = Ok r /\
     Validate.mismatches r = [] /\ Validate.matches r = Validate.total r /\
     Validate.total r = 1) /\
  (exists r' m,
     Validate.validate_dataset ascii_blank sample_loads ["<record 1, open>"; blank] = Ok r' /\
     Validate.mismatches r' = [m] /\
     Validate.expected m = "Confirmed" /\ Validate.actual m = "Open" /\
     Validate.total r' = 1 /\ S (Validate.matches r') = 1).
Proof.
  assert (H : Forall2 (parses ascii_blank sample_loads)
                ["<record 1>"; blank] [Some sample_t1; None])
    by solve_parses.
  assert (C : Forall consistent [Some sample_t1; None])
    by (repeat constructor).
  destruct (validator_correct _ _ _ _ H C) as [H1 H2]. split; [exact H1|].
  destruct (H2 [] sample_t1 [None] Open ["<record 1, open>"; blank])
    as (r' & m & Hr & Hm & He & Ha & _ & _ & Ht & Hc).
  - reflexivity.
  - discriminate.
  - solve_parses.
  - exists r', m. repeat split; assumption.
Defined.




(** ** The comment synthesizer *)

Lemma append_assoc (s1 s2 s3 : string) :
  (s1 +:+ s2) +:+ s3 = s1 +:+ (s2 +:+ s3).
Proof.
  induction s1 as [|c s1 IH]; [reflexivity|].
  change (String c ((s1 +:+ s2) +:+ s3) = String c (s1 +:+ (s2 +:+ s3))).
  f_equal. exact IH.
Qed.

(** Four sections joined by [sep]. *)
Lemma join_sections sep h c r s :
  join sep [h; c; r; s] = h +:+ (sep +:+ c) +:+ (sep +:+ r) +:+ (sep +:+ s).
Proof. unfold join. rewrite !append_assoc. reflexivity. Qed.

Section CommentProperties.

#[local] Arguments join : simpl never.
#[local] Arguments append_if : simpl never.

Variable str_of_other : json -> string.
Variables (data : json) (b : FactBundle).
Hypothesis facts : has_facts data b.

Ltac read_all_facts :=
  destruct facts as (F0 & F1 & F2 & F3 & F4 & F5 & F6 & F7 & F8 & F9);
  rewrite ?F0, ?F1, ?F2, ?F3, ?F4, ?F5, ?F6, ?F7, ?F8, ?F9; simpl.

Lemma generate_comment_parts label :
  exists clauses,
    Fix.generate_comment str_of_other data label
    = Ok (Layout.headline b +:+ (nl +:+ Layout.context b) +:+
          (nl +:+ Layout.recommendation label) +:+
          (nl +:+ Layout.reasoning clauses)).
Proof.
  unfold Fix.generate_comment. read_all_facts.
  unfold Layout.headline, Layout.context, Layout.recommendation,
    Layout.reasoning.
  repeat match goal with
         | |- context [bool_decide ?P] => destruct (bool_decide P); simpl
         | |- context [eq_str ?v ?s] => destruct (eq_str v s); simpl
         | |- context [if ?c then Ok true else _] => destruct c; simpl
         end;
    first
      [ exists ["Credential has been revoked and is no longer valid.";
                "No further action required. Verify rotation in key management system."];
        reflexivity
      | exists ["Credential has already been rotated; new key is in place.";
                "No further action required. Verify rotation in key management system."];
        reflexivity
      | eexists; reflexivity ].
Qed.

(** The comment function of the corrective tool puts each section on the
    line after the previous one, with no blank line between. *)
Lemma generate_comment_sections label :
  exists clauses,
    Fix.generate_comment str_of_other data label
    = Ok (join nl [Layout.headline b; Layout.context b;
                   Layout.recommendation label; Layout.reasoning clauses]).
Proof.
  destruct (generate_comment_parts label) as [clauses H].
  exists clauses. rewrite join_sections. exact H.
Qed.

End CommentProperties.

(** C9 fails on the comment function of the corrective tool.  On the first
    scenario, labelled Confirmed by the engine, the comment it produces has
    its four sections on consecutive lines; it is not the layout of the
    design document, whatever the clauses of the reasoning. *)
Theorem generate_comment_omits_blank_lines str_of_other :
  Fix.apply_decision_logic (bundle_data "AKIA****" scenario_prod) = Ok "Confirmed" /\
  Fix.generate_comment str_of_other (bundle_data "AKIA****" scenario_prod) "Confirmed"
  = Ok ("Automated analysis: AWS Secret Access Key detected in Prod Microservice." +:+ nl +:+
        "Context:" +:+ nl +:+
        "- Usage: Active usage in CloudTrail/Logs (Last 1h)" +:+ nl +:+
        "- Status: Active/Valid" +:+ nl +:+
        "- Criticality: Critical (P0 - Customer Data)" +:+ nl +:+
        "- Detection Source: Gitleaks" +:+ nl +:+
        "Recommendation: Mark as Confirmed." +:+ nl +:+
        "Reasoning: High-confidence active threat detected. Recent usage logs confirm the credential is actively being used. Public exposure increases risk of credential harvesting. Repository handles customer data - immediate rotation required. Impact radius: Single Service. Initiate incident response protocol.") /\
  forall clauses,
    Fix.generate_comment str_of_other (bundle_data "AKIA****" scenario_prod) "Confirmed"
    <> Ok (Layout.comment scenario_prod "Confirmed" clauses).
Proof.
  split; [reflexivity|]. split; [reflexivity|].
  intros clauses H. vm_compute in H. discriminate H.
Qed.

(** The generator's comment function, on the same input, gives the layout
    of the design document. *)
Lemma generate_ideal_comment_example str_of_other :
  Generate.generate_ideal_comment str_of_other
    (bundle_data "AKIA****" scenario_prod) "Confirmed"
  = Ok (Layout.comment scenario_prod "Confirmed"
          ["High-confidence active threat detected.";
           "Recent usage logs confirm the credential is actively being used.";
           "Public exposure increases risk of credential harvesting.";
           "Repository handles customer data - immediate rotation required.";
           "Impact radius: Single Service. Initiate incident response protocol."]).
Proof. reflexivity. Qed.

(** * Further properties of the code *)

(** ** The decision engine on arbitrary JSON *)

(** X1. Whatever JSON value the engine is given, when it returns, it returns
    one of the five label strings. *)
Theorem engine_returns_a_label data s :
  Validate.apply_decision_logic data = Ok s -> s ∈ five_labels.
Proof.
  unfold Validate.apply_decision_logic, five_labels. intros H.
  repeat match type of H with
         | context [bind ?r _] => destruct r; simpl in H; [|discriminate H]
         | context [if ?c then _ else _] => destruct c; simpl in H
         end;
    injection H as <-; set_solver.
Qed.

Lemma engine_returns_a_label_witness :
  "Confirmed" ∈ five_labels.
Proof.
  apply (engine_returns_a_label (bundle_data "AKIA****" scenario_prod)).
  reflexivity.
Defined.

(** The engine is a function of the six reads it makes. *)
Lemma engine_six_reads data data' :
  field data "investigation" "rotation_status"
    = field data' "investigation" "rotation_status" ->
  field data "repo_details" "type" = field data' "repo_details" "type" ->
  field data "investigation" "usage_evidence"
    = field data' "investigation" "usage_evidence" ->
  field data "repo_details" "criticality" = field data' "repo_details" "criticality" ->
  field data "repo_details" "exposure" = field data' "repo_details" "exposure" ->
  field data "investigation" "similar_past_incidents"
    = field data' "investigation" "similar_past_incidents" ->
  Validate.apply_decision_logic data = Validate.apply_decision_logic data'.
Proof.
  intros H1 H2 H3 H4 H5 H6. unfold Validate.apply_decision_logic.
  rewrite H1, H2, H3, H4, H5, H6. reflexivity.
Qed.

(** X2. The engine looks at nothing but [investigation] and [repo_details]:
    setting or removing any other key of the fact dictionary (the category,
    the snippet, the detection facts) changes neither the label nor the
    exception. *)
Theorem engine_ignores_other_keys (m : gmap string json) k v :
  k <> "investigation" -> k <> "repo_details" ->
  Validate.apply_decision_logic (JObj (<[k := v]> m))
    = Validate.apply_decision_logic (JObj m) /\
  Validate.apply_decision_logic (JObj (delete k m))
    = Validate.apply_decision_logic (JObj m).
Proof.
  intros N1 N2.
  split; apply engine_six_reads; unfold field; simpl;
    rewrite ?lookup_insert_ne, ?lookup_delete_ne by assumption; reflexivity.
Qed.

Lemma engine_ignores_other_keys_witness :
  Validate.apply_decision_logic
    (JObj (<["category" := JNull]>
             (list_to_map [("investigation", JStr "none")])))
  = Raise (TypeError "str").
Proof.
  destruct (engine_ignores_other_keys
              (list_to_map [("investigation", JStr "none")]) "category" JNull)
    as [H _]; [discriminate | discriminate |].
  rewrite H. reflexivity.
Defined.

(** X3. Missing facts: a fact dictionary without [investigation] raises
    [KeyError] on that key, before anything else is read; with it but without
    a rotation status, [KeyError] on [rotation_status]. *)
Theorem engine_missing_investigation (m : gmap string json) :
  (m !! "investigation" = None ->
   Validate.apply_decision_logic (JObj m) = Raise (KeyError "investigation")) /\
  (forall inv : gmap string json,
     m !! "investigation" = Some (JObj inv) ->
     inv !! "rotation_status" = None ->
     Validate.apply_decision_logic (JObj m) = Raise (KeyError "rotation_status")).
Proof.
  split.
  - intros H. unfold Validate.apply_decision_logic, field. simpl.
    rewrite H. reflexivity.
  - intros inv H1 H2. unfold Validate.apply_decision_logic, field. simpl.
    rewrite H1. simpl. rewrite H2. reflexivity.
Qed.

Lemma engine_missing_investigation_witness :
  Validate.apply_decision_logic (JObj ∅) = Raise (KeyError "investigation").
Proof.
  destruct (engine_missing_investigation ∅) as [H _]. apply H. reflexivity.
Defined.

(** X4. Rules 1 and 2 are decided on the rotation status alone: with the six
    facts present, of whatever type, a revoked or rotated credential is
    Mitigated and an invalid one False Positive, and no type error of
    another fact can surface. *)
Theorem early_rules_ignore_types data r v1 v2 v3 v4 v5 :
  field data "investigation" "rotation_status" = Ok (JStr r) ->
  field data "repo_details" "type" = Ok v1 ->
  field data "investigation" "usage_evidence" = Ok v2 ->
  field data "repo_details" "criticality" = Ok v3 ->
  field data "repo_details" "exposure" = Ok v4 ->
  field data "investigation" "similar_past_incidents" = Ok v5 ->
  (r = "Revoked" \/ r = "Already Rotated" ->
   Validate.apply_decision_logic data = Ok "Mitigated") /\
  (r = "Invalid" -> Validate.apply_decision_logic data = Ok "False Positive").
Proof.
  intros H0 H1 H2 H3 H4 H5. unfold Validate.apply_decision_logic.
  rewrite H0, H1, H2, H3, H4, H5. simpl.
  split; [intros [-> | ->] | intros ->]; reflexivity.
Qed.

Lemma early_rules_ignore_types_witness :
  Validate.apply_decision_logic
    (JObj (list_to_map [
       ("repo_details", JObj (list_to_map [
           ("type", JNull); ("exposure", JInt 1); ("criticality", JInt 0)]));
       ("investigation", JObj (list_to_map [
           ("usage_evidence", JBool true);
           ("rotation_status", JStr "Revoked");
           ("similar_past_incidents", JNull)]))]))
  = Ok "Mitigated".
Proof.
  eapply early_rules_ignore_types; [reflexivity..|].
  left. reflexivity.
Defined.

(** X5. What each label of the engine says about the facts.  Mitigated is
    returned exactly for a revoked or rotated credential; Suppressed exactly
    for an archived repository whose credential is neither of those nor
    invalid; Confirmed only for an Active/Valid credential outside archived
    repositories, with active usage or with high criticality and public
    exposure; False Positive only for an invalid credential or a test suite
    with false-positive history and no active usage. *)
Theorem engine_label_inversion data b :
  engine_facts data b ->
  let archived := contains "Deprecated" (repoType b) || contains "Archived" (repoType b) in
  let active := contains "Active usage" (usageEvidence b) in
  let high := contains "P0" (criticality b) || contains "P1" (criticality b) in
  let public := contains "Public" (exposure b) in
  (Validate.apply_decision_logic data = Ok "Mitigated" <->
     rotationStatus b = "Revoked" \/ rotationStatus b = "Already Rotated") /\
  (Validate.apply_decision_logic data = Ok "Suppressed" <->
     rotationStatus b <> "Revoked" /\ rotationStatus b <> "Already Rotated" /\
     rotationStatus b <> "Invalid" /\ archived = true) /\
  (Validate.apply_decision_logic data = Ok "Confirmed" ->
     rotationStatus b = "Active/Valid" /\ archived = false /\
     (active = true \/ (high = true /\ public = true))) /\
  (Validate.apply_decision_logic data = Ok "False Positive" ->
     rotationStatus b = "Invalid" \/
     (repoType b = "Test/QA Suite" /\
      similarPastIncidents b = "Frequent False Positives in this file" /\
      active = false)).
Proof.
  intros F. cbv zeta. rewrite (validate_engine_canonical _ _ F).
  unfold Canonical.Evaluate, Canonical.rules, Canonical.first_match,
    Canonical.rule1, Canonical.rule2, Canonical.rule3, Canonical.rule4,
    Canonical.rule5, Canonical.rule6, Canonical.rule7, Canonical.rule8,
    Canonical.hasRotation, Canonical.isArchived, Canonical.isTestSuite,
    Canonical.flagsFrequentFP, Canonical.isActiveUsage,
    Canonical.isHighCriticality, Canonical.isPublic.
  repeat match goal with
         | |- context [bool_decide ?P] => destruct (bool_decide_reflect P); simpl
         end;
    repeat match goal with
           | |- context [contains ?n ?h] => destruct (contains n h); simpl
           end;
    repeat split; intros; try discriminate; try congruence; try tauto;
    intuition congruence.
Qed.

(** ** The validator on arbitrary corpora *)

Section ValidatorRuns.

Variable is_blank : string -> bool.
Variable json_loads : string -> result json.

(** What one line does to the report, when it does not raise. *)
Lemma validate_line_cases n ln r0 r :
  Validate.validate_line is_blank json_loads n ln r0 = Ok r ->
  (is_blank ln = true /\ r = r0) \/
  (is_blank ln = false /\
   exists a,
     Validate.total r = S (Validate.total r0) /\
     ((Validate.matches r = S (Validate.matches r0) /\
       Validate.mismatches r = Validate.mismatches r0 /\
       Validate.by_label r = Validate.incr_correct (Validate.by_label r0) a /\
       forall m, ~ reported is_blank json_loads ln m) \/
      (Validate.matches r = Validate.matches r0 /\
       Validate.by_label r = Validate.incr_incorrect (Validate.by_label r0) a /\
       exists m, Validate.mismatches r = Validate.mismatches r0 ++ [m] /\
                 Validate.line m = n /\ reported is_blank json_loads ln m))).
Proof.
  unfold Validate.validate_line, reported. intros H.
  destruct (is_blank ln); [left; split; congruence|]. right.
  split; [reflexivity|].
  destruct (json_loads ln) as [ticket|] eqn:Hj; simpl in H; [|discriminate].
  destruct (subscript ticket "data") as [data|] eqn:Hd; simpl in H; [|discriminate].
  destruct (Validate.apply_decision_logic data) as [e|] eqn:He; simpl in H;
    [|discriminate].
  destruct (subscript ticket "label") as [v|] eqn:Hl; simpl in H; [|discriminate].
  destruct v as [| | | |a| |]; try discriminate. exists a.
  destruct (bool_decide_reflect (lower e = lower a)) as [Heq|Hne].
  - injection H as <-. simpl. split; [reflexivity|]. left.
    split; [reflexivity|]. split; [reflexivity|]. split; [reflexivity|].
    intros m (_ & t' & d' & [= <-] & D' & E' & A' & Hne & _).
    apply Hne. congruence.
  - repeat match type of H with
           | context [bind ?x _] => destruct x eqn:?; simpl in H; [|discriminate]
           end.
    injection H as <-. simpl. split; [reflexivity|]. right.
    split; [reflexivity|]. split; [reflexivity|].
    eexists. split; [reflexivity|]. split; [reflexivity|]. simpl.
    split; [reflexivity|]. exists ticket, data. repeat split; assumption.
Qed.

(** An entry is determined by the line it reports. *)
Lemma reported_unique ln m1 m2 :
  reported is_blank json_loads ln m1 -> reported is_blank json_loads ln m2 ->
  Validate.line m1 = Validate.line m2 -> m1 = m2.
Proof.
  intros (_ & t1 & d1 & L1 & D1 & E1 & A1 & _ & I1 & R1 & T1 & U1 & C1 & P1)
         (_ & t2 & d2 & L2 & D2 & E2 & A2 & _ & I2 & R2 & T2 & U2 & C2 & P2) Hl.
  assert (t1 = t2) by congruence. subst t2.
  assert (d1 = d2) by congruence. subst d2.
  destruct m1, m2; simpl in *. f_equal; congruence.
Qed.

End ValidatorRuns.

Section ValidatorRuns2.

Variable is_blank : string -> bool.
Variable json_loads : string -> result json.

(** The loop on any corpus, when it does not raise. *)
Lemma validate_loop_run lines : forall n r0 r,
  Validate.validate_loop is_blank json_loads n lines r0 = Ok r ->
  exists new,
    Validate.mismatches r = Validate.mismatches r0 ++ new /\
    Validate.total r = Validate.total r0 + length (nonblank is_blank lines) /\
    Validate.matches r + length new
      = Validate.matches r0 + length (nonblank is_blank lines) /\
    (forall m, m ∈ new <->
       n <= Validate.line m /\
       exists ln, lines !! (Validate.line m - n) = Some ln /\
                  reported is_blank json_loads ln m) /\
    StronglySorted lt (Validate.line <$> new) /\
    Forall (fun m => n <= Validate.line m < n + length lines) new.
Proof.
  induction lines as [|ln lines IH]; intros n r0 r H; simpl in H.
  - injection H as <-. exists []. rewrite app_nil_r.
    split; [reflexivity|]. split; [simpl; lia|]. split; [simpl; lia|].
    split; [|split; constructor].
    intros m. split; [intros Hm; inversion Hm|].
    intros (_ & ln & Hl & _). discriminate.
  - destruct (Validate.validate_line is_blank json_loads n ln r0) as [r1|] eqn:Hline;
      simpl in H; [|discriminate].
    destruct (IH _ _ _ H) as (new & Hmm & Ht & Hc & Hiff & Hs & Hb).
    assert (Tail : forall m, m ∈ new <->
              S n <= Validate.line m /\
              exists l', (ln :: lines) !! (Validate.line m - n) = Some l' /\
                         reported is_blank json_loads l' m).
    { intros m. rewrite Hiff. split; intros (Hle & l' & Hl & Hr);
        (split; [exact Hle|]); exists l'; (split; [|exact Hr]).
      - replace (Validate.line m - n) with (S (Validate.line m - S n)) by lia.
        exact Hl.
      - replace (Validate.line m - n) with (S (Validate.line m - S n)) in Hl by lia.
        exact Hl. }
    assert (Hb' : Forall (fun m => n <= Validate.line m < n + length (ln :: lines)) new).
    { eapply Forall_impl; [exact Hb|]. simpl. intros; lia. }
    assert (Head : forall m, n <= Validate.line m ->
              (exists l', (ln :: lines) !! (Validate.line m - n) = Some l' /\
                          reported is_blank json_loads l' m) ->
              ~ S n <= Validate.line m -> reported is_blank json_loads ln m /\ Validate.line m = n).
    { intros m Hle (l' & Hl & Hr) Hn.
      assert (E : Validate.line m = n) by lia.
      rewrite E, Nat.sub_diag in Hl. injection Hl as <-. split; assumption. }
    apply validate_line_cases in Hline
      as [[Hblank ->] | (Hblank & a & Ht1 & [(Hm1 & Hmm1 & _ & Hnone) | (Hm1 & _ & m0 & Hmm1 & Hl0 & Hr0)])].
    + exists new. unfold nonblank in *. rewrite filter_cons_False by congruence.
      split; [exact Hmm|]. split; [exact Ht|]. split; [exact Hc|].
      split; [|split; assumption].
      intros m. rewrite Tail. split.
      * intros (Hle & H'). split; [lia | exact H'].
      * intros (Hle & H'). split; [|exact H'].
        destruct (decide (S n <= Validate.line m)) as [|Hn]; [assumption|].
        destruct (Head m Hle H' Hn) as [[Hr _] _]. congruence.
    + exists new. unfold nonblank in *. rewrite filter_cons_True by assumption.
      simpl. split; [congruence|]. split; [lia|]. split; [lia|].
      split; [|split; assumption].
      intros m. rewrite Tail. split.
      * intros (Hle & H'). split; [lia | exact H'].
      * intros (Hle & H'). split; [|exact H'].
        destruct (decide (S n <= Validate.line m)) as [|Hn]; [assumption|].
        destruct (Head m Hle H' Hn) as [Hr _]. destruct (Hnone m Hr).
    + exists (m0 :: new). unfold nonblank in *.
      rewrite filter_cons_True by assumption. simpl.
      split; [rewrite Hmm, Hmm1, <- app_assoc; reflexivity|].
      split; [lia|]. split; [lia|]. split; [|split].
      * intros m. rewrite elem_of_cons, Tail. split.
        -- intros [-> | (Hle & H')]; [|split; [lia | exact H']].
           split; [lia|]. exists ln. rewrite Hl0, Nat.sub_diag. split; [reflexivity|assumption].
        -- intros (Hle & H').
           destruct (decide (S n <= Validate.line m)) as [|Hn]; [right; split; assumption|].
           left. destruct (Head m Hle H' Hn) as [Hr E].
           apply (reported_unique is_blank json_loads ln); [assumption..|congruence].
      * simpl. constructor; [assumption|]. apply Forall_fmap.
        eapply Forall_impl; [exact Hb|]. simpl. intros; lia.
      * constructor; [simpl; lia | assumption].
Qed.

(** X6. The accounting of a report: whatever the corpus, the parser and the
    blank test of the runtime, when the validator returns, every line that
    the blank test [not line.strip()] does not skip was counted once, as a
    match or as a mismatch. *)
Theorem validator_accounting lines r :
  Validate.validate_dataset is_blank json_loads lines = Ok r ->
  Validate.total r = length (nonblank is_blank lines) /\
  Validate.total r = Validate.matches r + length (Validate.mismatches r).
Proof.
  intros H. destruct (validate_loop_run _ _ _ _ H) as (new & Hm & Ht & Hc & _).
  simpl in *. subst new. lia.
Qed.

(** X7. The mismatch list of a report is exact on every corpus the validator
    gets through: an entry is in the list if and only if the line of its
    number holds a record whose recomputed and recorded labels differ, letter
    case aside, and the entry carries the fields of that record. *)
Theorem validator_mismatches_exact lines r :
  Validate.validate_dataset is_blank json_loads lines = Ok r ->
  forall m,
    m ∈ Validate.mismatches r <->
    1 <= Validate.line m /\
    exists ln, lines !! (Validate.line m - 1) = Some ln /\
               reported is_blank json_loads ln m.
Proof.
  intros H. destruct (validate_loop_run _ _ _ _ H) as (new & Hm & _ & _ & Hiff & _).
  simpl in Hm. subst new. exact Hiff.
Qed.


End ValidatorRuns2.

(** The sum of a nat-valued weight over a tally, after one entry is set. *)
Lemma sum_insert (w : Validate.Counts -> nat) (bl : gmap string Validate.Counts) k c :
  w {| Validate.correct := 0; Validate.incorrect := 0 |} = 0 ->
  map_fold (fun _ c acc => w c + acc) 0 (<[k := c]> bl) + w (Validate.counts_of bl k)
  = w c + map_fold (fun _ c acc => w c + acc) 0 bl.
Proof.
  intros W0.
  assert (Comm : forall (m : gmap string Validate.Counts) (j1 j2 : string) z1 z2 (y : nat),
            j1 <> j2 -> m !! j1 = Some z1 -> m !! j2 = Some z2 ->
            w z1 + (w z2 + y) = w z2 + (w z1 + y)) by (intros; lia).
  unfold Validate.counts_of. destruct (bl !! k) as [c0|] eqn:Hk; simpl.
  - rewrite <- insert_delete_eq.
    rewrite map_fold_insert_L; [|apply Comm|apply lookup_delete_eq].
    rewrite (map_fold_delete_L _ _ k c0 bl); [|apply Comm|exact Hk]. lia.
  - rewrite map_fold_insert_L; [|apply Comm|exact Hk]. lia.
Qed.

Lemma sums_incr_correct bl a :
  sum_correct (Validate.incr_correct bl a) = S (sum_correct bl) /\
  sum_incorrect (Validate.incr_correct bl a) = sum_incorrect bl.
Proof.
  unfold sum_correct, sum_incorrect, Validate.incr_correct.
  pose proof (sum_insert Validate.correct bl a
    {| Validate.correct := S (Validate.correct (Validate.counts_of bl a));
       Validate.incorrect := Validate.incorrect (Validate.counts_of bl a) |} eq_refl) as H1.
  pose proof (sum_insert Validate.incorrect bl a
    {| Validate.correct := S (Validate.correct (Validate.counts_of bl a));
       Validate.incorrect := Validate.incorrect (Validate.counts_of bl a) |} eq_refl) as H2.
  cbn [Validate.correct Validate.incorrect] in H1, H2. lia.
Qed.

Lemma sums_incr_incorrect bl a :
  sum_correct (Validate.incr_incorrect bl a) = sum_correct bl /\
  sum_incorrect (Validate.incr_incorrect bl a) = S (sum_incorrect bl).
Proof.
  unfold sum_correct, sum_incorrect, Validate.incr_incorrect.
  pose proof (sum_insert Validate.correct bl a
    {| Validate.correct := Validate.correct (Validate.counts_of bl a);
       Validate.incorrect := S (Validate.incorrect (Validate.counts_of bl a)) |} eq_refl) as H1.
  pose proof (sum_insert Validate.incorrect bl a
    {| Validate.correct := Validate.correct (Validate.counts_of bl a);
       Validate.incorrect := S (Validate.incorrect (Validate.counts_of bl a)) |} eq_refl) as H2.
  cbn [Validate.correct Validate.incorrect] in H1, H2. lia.
Qed.

Section ValidatorTally.

Variable is_blank : string -> bool.
Variable json_loads : string -> result json.

Lemma validate_loop_sums lines : forall n r0 r,
  Validate.validate_loop is_blank json_loads n lines r0 = Ok r ->
  sum_correct (Validate.by_label r) + Validate.matches r0
    = sum_correct (Validate.by_label r0) + Validate.matches r /\
  sum_incorrect (Validate.by_label r) + length (Validate.mismatches r0)
    = sum_incorrect (Validate.by_label r0) + length (Validate.mismatches r).
Proof.
  induction lines as [|ln lines IH]; intros n r0 r H; simpl in H.
  - injection H as <-. split; lia.
  - destruct (Validate.validate_line is_blank json_loads n ln r0) as [r1|] eqn:Hline;
      simpl in H; [|discriminate].
    destruct (IH _ _ _ H) as [IH1 IH2].
    apply validate_line_cases in Hline
      as [[_ ->] | (_ & a & _ & [(Hm & Hmm & Hb & _) | (Hm & Hb & m0 & Hmm & _)])].
    + split; assumption.
    + destruct (sums_incr_correct (Validate.by_label r0) a) as [S1 S2].
      rewrite Hb in IH1, IH2. rewrite Hmm in IH2. split; lia.
    + destruct (sums_incr_incorrect (Validate.by_label r0) a) as [S1 S2].
      rewrite Hb in IH1, IH2. rewrite Hmm, length_app in IH2. simpl in IH2.
      split; lia.
Qed.

(** X9. The per-label tally partitions the report: summed over the recorded
    labels, the correct counts give the number of matches and the incorrect
    counts the number of mismatches. *)
Theorem validator_tally_sums lines r :
  Validate.validate_dataset is_blank json_loads lines = Ok r ->
  sum_correct (Validate.by_label r) = Validate.matches r /\
  sum_incorrect (Validate.by_label r) = length (Validate.mismatches r).
Proof.
  intros H. destruct (validate_loop_sums _ _ _ _ H) as [H1 H2].
  change (sum_correct (Validate.by_label Validate.initial_results)) with 0 in H1.
  change (sum_incorrect (Validate.by_label Validate.initial_results)) with 0 in H2.
  simpl in H1, H2. lia.
Qed.

End ValidatorTally.

(** Counting one more ticket in the second report, then merging, is
    merging, then counting it. *)
Lemma merge_incr_correct (b1 b2 : gmap string Validate.Counts) a :
  union_with add_counts b1 (Validate.incr_correct b2 a)
  = Validate.incr_correct (union_with add_counts b1 b2) a.
Proof.
  apply map_eq. intros j.
  unfold Validate.incr_correct, Validate.counts_of.
  rewrite lookup_union_with, !lookup_insert, !lookup_union_with.
  destruct (decide (a = j)) as [->|]; [|reflexivity].
  destruct (b1 !! j) as [c1|], (b2 !! j) as [c2|]; simpl;
    unfold add_counts; simpl; repeat f_equal; lia.
Qed.

Lemma merge_incr_incorrect (b1 b2 : gmap string Validate.Counts) a :
  union_with add_counts b1 (Validate.incr_incorrect b2 a)
  = Validate.incr_incorrect (union_with add_counts b1 b2) a.
Proof.
  apply map_eq. intros j.
  unfold Validate.incr_incorrect, Validate.counts_of.
  rewrite lookup_union_with, !lookup_insert, !lookup_union_with.
  destruct (decide (a = j)) as [->|]; [|reflexivity].
  destruct (b1 !! j) as [c1|], (b2 !! j) as [c2|]; simpl;
    unfold add_counts; simpl; repeat f_equal; lia.
Qed.

Section ValidatorMerge.

Variable is_blank : string -> bool.
Variable json_loads : string -> result json.

(** A line read [k] lines further down, on top of the report [b]. *)
Lemma validate_line_shift k b n ln r0 r :
  Validate.validate_line is_blank json_loads n ln r0 = Ok r ->
  Validate.validate_line is_blank json_loads (k + n) ln (merge_reports k b r0)
  = Ok (merge_reports k b r).
Proof.
  unfold Validate.validate_line. intros H.
  destruct (is_blank ln); [congruence|].
  destruct (json_loads ln) as [ticket|]; simpl in *; [|discriminate].
  destruct (subscript ticket "data") as [data|]; simpl in *; [|discriminate].
  destruct (Validate.apply_decision_logic data) as [e|]; simpl in *; [|discriminate].
  destruct (subscript ticket "label") as [v|]; simpl in *; [|discriminate].
  destruct v as [| | | |a| |]; try discriminate.
  destruct (bool_decide (lower e = lower a)).
  - injection H as <-. unfold merge_reports. simpl.
    rewrite merge_incr_correct. do 2 f_equal; lia.
  - repeat match type of H with
           | context [bind ?x _] => destruct x; simpl in *; [|discriminate]
           end.
    injection H as <-. unfold merge_reports. simpl.
    rewrite merge_incr_incorrect, map_app, app_assoc. simpl.
    do 2 f_equal; lia.
Qed.

Lemma validate_loop_shift k b lines : forall n r0 r,
  Validate.validate_loop is_blank json_loads n lines r0 = Ok r ->
  Validate.validate_loop is_blank json_loads (k + n) lines (merge_reports k b r0)
  = Ok (merge_reports k b r).
Proof.
  induction lines as [|ln lines IH]; intros n r0 r H; simpl in *.
  - congruence.
  - destruct (Validate.validate_line is_blank json_loads n ln r0) as [r1|] eqn:Hline;
      simpl in H; [|discriminate].
    rewrite (validate_line_shift _ _ _ _ _ _ Hline). simpl.
    replace (S (k + n)) with (k + S n) by lia. apply IH, H.
Qed.

Lemma merge_initial k b : merge_reports k b Validate.initial_results = b.
Proof.
  destruct b as [t m ms bl]. unfold merge_reports. simpl.
  rewrite !Nat.add_0_r, app_nil_r. f_equal.
  apply map_eq. intros j. rewrite lookup_union_with, lookup_empty.
  destruct (bl !! j); reflexivity.
Qed.

(** X10. Reports merge: when the validator gets through two corpora, it gets
    through their concatenation, and the report is the merge of the two
    reports, the line numbers of the second moved by the length of the
    first. *)
Theorem validator_reports_merge lines1 lines2 r1 r2 :
  Validate.validate_dataset is_blank json_loads lines1 = Ok r1 ->
  Validate.validate_dataset is_blank json_loads lines2 = Ok r2 ->
  Validate.validate_dataset is_blank json_loads (lines1 ++ lines2)
  = Ok (merge_reports (length lines1) r1 r2).
Proof.
  unfold Validate.validate_dataset. intros H1 H2.
  rewrite validate_loop_app, H1. simpl.
  pose proof (validate_loop_shift (length lines1) r1 _ _ _ _ H2) as H.
  rewrite merge_initial in H. rewrite <- H. f_equal. lia.
Qed.

End ValidatorMerge.

Section ValidatorEdges.

Variable is_blank : string -> bool.
Variable json_loads : string -> result json.

Lemma validate_dataset_snoc_line pre ln post r :
  Validate.validate_dataset is_blank json_loads pre = Ok r ->
  Validate.validate_dataset is_blank json_loads (pre ++ ln :: post)
  = let* r1 := Validate.validate_line is_blank json_loads (S (length pre)) ln r in
    Validate.validate_loop is_blank json_loads (S (S (length pre))) post r1.
Proof.
  unfold Validate.validate_dataset. intros H.
  rewrite validate_loop_app, H. reflexivity.
Qed.

(** X11. A recorded label that is not a string ends the run: on a record
    whose facts the engine accepts and whose [label] is, say, [null] or a
    number, the validator raises [AttributeError], whatever follows. *)
Theorem validator_label_not_a_string pre ln post r ticket data e v :
  Validate.validate_dataset is_blank json_loads pre = Ok r ->
  is_blank ln = false ->
  json_loads ln = Ok ticket ->
  subscript ticket "data" = Ok data ->
  Validate.apply_decision_logic data = Ok e ->
  subscript ticket "label" = Ok v ->
  (forall s, v <> JStr s) ->
  Validate.validate_dataset is_blank json_loads (pre ++ ln :: post)
  = Raise (AttributeError (py_type v)).
Proof.
  intros Hpre Hb Hj Hd He Hl Hv.
  rewrite (validate_dataset_snoc_line _ _ _ _ Hpre).
  unfold Validate.validate_line. rewrite Hb, Hj. simpl.
  rewrite Hd. simpl. rewrite He. simpl. rewrite Hl. simpl.
  destruct v; try reflexivity. destruct (Hv s). reflexivity.
Qed.

(** X12. The ticket identifier is read only to report a mismatch.  A record
    without [ticket_id] whose recorded label matches is counted like any
    other, and the run goes on; when the label does not match, the run ends
    with [KeyError] on [ticket_id]. *)
Theorem validator_missing_ticket_id pre ln post r (t : gmap string json) data e a :
  Validate.validate_dataset is_blank json_loads pre = Ok r ->
  is_blank ln = false ->
  json_loads ln = Ok (JObj t) ->
  t !! "ticket_id" = None ->
  t !! "data" = Some data ->
  Validate.apply_decision_logic data = Ok e ->
  t !! "label" = Some (JStr a) ->
  (lower e = lower a ->
   Validate.validate_dataset is_blank json_loads (pre ++ ln :: post)
   = Validate.validate_loop is_blank json_loads (S (S (length pre))) post
       {| Validate.total := S (Validate.total r);
          Validate.matches := S (Validate.matches r);
          Validate.mismatches := Validate.mismatches r;
          Validate.by_label := Validate.incr_correct (Validate.by_label r) a |}) /\
  (lower e <> lower a ->
   Validate.validate_dataset is_blank json_loads (pre ++ ln :: post)
   = Raise (KeyError "ticket_id")).
Proof.
  intros Hpre Hb Hj Hid Hd He Hl.
  rewrite (validate_dataset_snoc_line _ _ _ _ Hpre).
  unfold Validate.validate_line. rewrite Hb, Hj. simpl.
  rewrite Hd. simpl. rewrite He. simpl. rewrite Hl. simpl.
  split; intros H.
  - rewrite bool_decide_eq_true_2 by assumption. reflexivity.
  - rewrite bool_decide_eq_false_2 by assumption. rewrite Hid. reflexivity.
Qed.

(** X13. Blank lines hold no record: a corpus of blank lines only, the empty
    corpus among them, gives the empty report. *)
Theorem validator_blank_corpus lines :
  Forall (fun ln => is_blank ln = true) lines ->
  Validate.validate_dataset is_blank json_loads lines = Ok Validate.initial_results.
Proof.
  unfold Validate.validate_dataset. intros H. generalize 1.
  induction H as [|ln lines Hb _ IH]; intros n; simpl; [reflexivity|].
  unfold Validate.validate_line. rewrite Hb. simpl. apply IH.
Qed.

End ValidatorEdges.

(** ** The corrective tool *)

Section FixRuns.

Variable is_blank : string -> bool.
Variable json_loads : string -> result json.
Variable str_of_other : json -> string.

Ltac run_io H :=
  repeat match type of H with
         | context [match ?r with Ok _ => _ | Raise _ => _ end] =>
             destruct r eqn:?; simpl in H
         | context [if ?c then _ else _] => destruct c eqn:?; simpl in H
         end.

(** What one record does: either it raises and writes nothing, or it writes
    one fixed ticket and counts it, as fixed when its label was not the
    engine's. *)
Lemma fix_line_run ln f t out out' res :
  Fix.fix_line json_loads str_of_other ln f t out = (out', res) ->
  match res with
  | Raise _ => written out' = written out
  | Ok (f', t') =>
    exists ticket j lbl c,
      json_loads ln = Ok ticket /\
      fixed_ticket str_of_other ticket j /\
      subscript ticket "label" = Ok lbl /\
      (exists data, subscript ticket "data" = Ok data /\
                    Fix.apply_decision_logic data = Ok c) /\
      written out' = written out ++ [j] /\
      t' = S t /\
      ((eq_str lbl c = true /\ f' = f /\ printed out' = printed out) \/
       (eq_str lbl c = false /\ f' = S f /\
        exists msg, printed out' = printed out ++ [msg]))
  end.
Proof.
  unfold Fix.fix_line, io_bind, lift, io_ret, print, write, setitem.
  intros H.
  destruct (json_loads ln) as [ticket|] eqn:Hj; simpl in H;
    [|injection H as <- <-; reflexivity].
  destruct ticket as [| | | | | |m]; simpl in H;
    try (injection H as <- <-; reflexivity).
  destruct (m !! "data") as [data|] eqn:Hd; simpl in H;
    [|injection H as <- <-; reflexivity].
  destruct (Fix.apply_decision_logic data) as [c|] eqn:Hc; simpl in H;
    [|injection H as <- <-; reflexivity].
  destruct (m !! "label") as [lbl|] eqn:Hl; simpl in H;
    [|injection H as <- <-; reflexivity].
  rewrite lookup_insert_ne in H by discriminate. rewrite Hd in H. simpl in H.
  destruct (eq_str lbl c) eqn:He; simpl in H.
  - destruct (Fix.generate_comment str_of_other data c) as [comment|] eqn:Hg;
      simpl in H; injection H as <- <-; [|reflexivity]. simpl.
    exists (JObj m), (JObj (<["ideal_llm_comment" := JStr comment]>
                              (<["label" := JStr c]> m))), lbl, c.
    split; [reflexivity|]. split; [exists m, data, c, comment; auto|].
    simpl. rewrite Hl, Hd. split; [reflexivity|]. split; [eauto|].
    split; [reflexivity|]. split; [reflexivity|]. left. auto.
  - destruct (m !! "ticket_id") as [tid|] eqn:Ht; simpl in H;
      [|injection H as <- <-; reflexivity].
    destruct (Fix.generate_comment str_of_other data c) as [comment|] eqn:Hg;
      simpl in H; injection H as <- <-; [|reflexivity]. simpl.
    exists (JObj m), (JObj (<["ideal_llm_comment" := JStr comment]>
                              (<["label" := JStr c]> m))), lbl, c.
    split; [reflexivity|]. split; [exists m, data, c, comment; auto|].
    simpl. rewrite Hl, Hd. split; [reflexivity|]. split; [eauto|].
    split; [reflexivity|]. split; [reflexivity|]. right. eauto.
Qed.

Lemma fix_loop_cons ln lines f t out :
  Fix.fix_loop is_blank json_loads str_of_other (ln :: lines) f t out =
  if is_blank ln then Fix.fix_loop is_blank json_loads str_of_other lines f t out
  else match Fix.fix_line json_loads str_of_other ln f t out with
       | (out1, Ok c) => Fix.fix_loop is_blank json_loads str_of_other lines (fst c) (snd c) out1
       | (out1, Raise e) => (out1, Raise e)
       end.
Proof. simpl. destruct (is_blank ln); reflexivity. Qed.

(** The loop of the corrective tool on any corpus. *)
Lemma fix_loop_run lines : forall f t out out' res,
  Fix.fix_loop is_blank json_loads str_of_other lines f t out = (out', res) ->
  exists js,
    written out' = written out ++ js /\
    Forall2 (fixes json_loads str_of_other) (take (length js) (nonblank is_blank lines)) js /\
    match res with
    | Ok (f', t') =>
      length js = length (nonblank is_blank lines) /\ t' = t + length js /\
      f <= f' /\ f' <= f + length js /\
      length (printed out') = length (printed out) + (f' - f)
    | Raise _ => length js < length (nonblank is_blank lines)
    end.
Proof.
  induction lines as [|ln lines IH]; intros f t out out' res H.
  - injection H as <- <-. exists []. rewrite app_nil_r.
    split; [reflexivity|]. split; [constructor|]. simpl. lia.
  - rewrite fix_loop_cons in H. unfold nonblank in *.
    destruct (is_blank ln) eqn:Hb.
    + rewrite filter_cons_False by congruence. apply IH, H.
    + rewrite filter_cons_True by assumption.
      destruct (Fix.fix_line json_loads str_of_other ln f t out)
        as [out1 [[f1 t1]|e]] eqn:Hline.
      * apply fix_line_run in Hline
          as (ticket & j & lbl & c & Hj & Hfix & _ & _ & Hw & -> & Hf).
        simpl in H. destruct (IH _ _ _ _ _ H) as (js & Hw' & Hall & Hres).
        exists (j :: js). rewrite Hw', Hw, <- app_assoc. split; [reflexivity|].
        split; [simpl; constructor; [exists ticket; auto | exact Hall]|].
        destruct res as [[f' t']|]; simpl.
        -- destruct Hres as (Hlen & -> & Hle1 & Hle2 & Hp).
           destruct Hf as [(_ & -> & Hp1) | (_ & -> & msg & Hp1)];
             rewrite Hp, Hp1, ?length_app; simpl; lia.
        -- lia.
      * apply fix_line_run in Hline. injection H as <- <-.
        exists []. rewrite app_nil_r. split; [exact Hline|].
        split; [constructor|]. simpl. lia.
Qed.



(** What the corrective tool writes, however the run ends. *)
Lemma fix_dataset_writes lines path out res :
  Fix.fix_dataset is_blank json_loads str_of_other lines path no_output = (out, res) ->
  Forall2 (fixes json_loads str_of_other)
    (take (length (written out)) (nonblank is_blank lines)) (written out) /\
  match res with
  | Ok fixed =>
    length (written out) = length (nonblank is_blank lines) /\
    fixed <= length (nonblank is_blank lines)
  | Raise _ => length (written out) < length (nonblank is_blank lines)
  end.
Proof.
  unfold Fix.fix_dataset, io_bind. intros H.
  destruct (Fix.fix_loop is_blank json_loads str_of_other lines 0 0 no_output)
    as [out1 res1] eqn:Hloop.
  destruct (fix_loop_run _ _ _ _ _ _ Hloop) as (js & Hw & Hall & Hres).
  simpl in Hw. subst js.
  destruct res1 as [[f t]|e]; simpl in H; injection H as <- <-; simpl.
  - split; [exact Hall|]. destruct Hres as (Hlen & _ & _ & Hle & Hp). lia.
  - split; assumption.
Qed.


End FixRuns.

Section FixAndValidate.

Variable is_blank : string -> bool.
Variable json_loads : string -> result json.
Variable str_of_other : json -> string.

(** The validator on a line that holds a fixed ticket: a match. *)
Lemma validate_line_fixed n ln ticket j r0 :
  reads_back is_blank json_loads ln j -> fixed_ticket str_of_other ticket j ->
  exists bl,
    Validate.validate_line is_blank json_loads n ln r0
    = Ok {| Validate.total := S (Validate.total r0);
            Validate.matches := S (Validate.matches r0);
            Validate.mismatches := Validate.mismatches r0;
            Validate.by_label := bl |}.
Proof.
  intros [Hb Hj] (m & data & c & comment & _ & Hd & Hc & _ & ->).
  unfold Validate.validate_line. rewrite Hb, Hj. cbn [bind subscript].
  rewrite ?lookup_insert_ne by discriminate. rewrite ?Hd. cbn [bind subscript].
  rewrite engines_agree, Hc. cbn [bind subscript].
  rewrite ?lookup_insert_ne by discriminate. rewrite ?lookup_insert_eq. cbn [bind].
  rewrite bool_decide_eq_true_2 by reflexivity. eexists. reflexivity.
Qed.

Lemma validate_loop_fixed lines js :
  Forall2 (reads_back is_blank json_loads) lines js ->
  Forall (fun j => exists ticket, fixed_ticket str_of_other ticket j) js ->
  forall n r0,
  exists r,
    Validate.validate_loop is_blank json_loads n lines r0 = Ok r /\
    Validate.mismatches r = Validate.mismatches r0 /\
    Validate.total r = Validate.total r0 + length js /\
    Validate.matches r = Validate.matches r0 + length js.
Proof.
  induction 1 as [|ln j lines js Hr _ IH]; intros Hf n r0; simpl.
  - exists r0. repeat split; lia.
  - inversion Hf as [|? ? [ticket Hfix] Hf']; subst.
    destruct (validate_line_fixed n ln ticket j r0 Hr Hfix) as [bl ->]. simpl.
    edestruct (IH Hf' (S n)) as (r & -> & Hm & Ht & Hc).
    exists r. rewrite Hm, Ht, Hc. simpl. repeat split; lia.
Qed.

Lemma fixes_fixed lines js :
  Forall2 (fixes json_loads str_of_other) lines js ->
  Forall (fun j => exists ticket, fixed_ticket str_of_other ticket j) js.
Proof.
  induction 1 as [|ln j lines js (ticket & _ & H) _ IH]; constructor; eauto.
Qed.

(** X15. The validator finds nothing to report in what the corrective tool
    wrote: when the output file, complete or cut short by an exception, is
    read back, every record is a match. *)
Theorem validate_after_fix lines path out res lines' :
  Fix.fix_dataset is_blank json_loads str_of_other lines path no_output = (out, res) ->
  Forall2 (reads_back is_blank json_loads) lines' (written out) ->
  exists r,
    Validate.validate_dataset is_blank json_loads lines' = Ok r /\
    Validate.mismatches r = [] /\
    Validate.total r = length (written out) /\
    Validate.matches r = length (written out).
Proof.
  intros H Hread.
  destruct (fix_dataset_writes _ _ _ _ _ _ _ H) as [Hall _].
  apply fixes_fixed in Hall.
  apply (validate_loop_fixed _ _ Hread Hall 1 Validate.initial_results).
Qed.




(** The two tools on the same line. *)
Lemma fix_counts_mismatch n ln r0 r f t out out' f' t' :
  Validate.validate_line is_blank json_loads n ln r0 = Ok r ->
  is_blank ln = false ->
  Fix.fix_line json_loads str_of_other ln f t out = (out', Ok (f', t')) ->
  length (Validate.mismatches r) + f <= length (Validate.mismatches r0) + f' /\
  f <= f' /\
  Validate.total r + t = Validate.total r0 + t'.
Proof.
  intros Hv Hb Hf.
  apply fix_line_run in Hf
    as (ticket & j & lbl & c & Hj & _ & Hl & (data & Hd & Hc) & _ & -> & Hcount).
  apply validate_line_cases in Hv
    as [[Hb' _] | (_ & a & Ht & [(_ & Hmm & _) | (_ & _ & m0 & Hmm & _ & Hrep)])];
    [congruence| |].
  - rewrite Hmm. destruct Hcount as [(_ & -> & _) | (_ & -> & _)]; lia.
  - rewrite Hmm, length_app. simpl.
    destruct Hrep as (_ & ticket' & data' & Hj' & Hd' & He' & Hl' & Hne & _).
    assert (ticket' = ticket) by congruence. subst ticket'.
    assert (data' = data) by congruence. subst data'.
    rewrite engines_agree, Hc in He'. injection He' as He'.
    rewrite Hl in Hl'. injection Hl' as ->.
    destruct Hcount as [(Heq & _ & _) | (_ & -> & _)]; [|lia].
    simpl in Heq. apply bool_decide_eq_true in Heq. exfalso. apply Hne.
    rewrite <- He', Heq. reflexivity.
Qed.

Lemma fix_loop_counts_mismatches lines : forall n r0 r f t out out' f' t',
  Validate.validate_loop is_blank json_loads n lines r0 = Ok r ->
  Fix.fix_loop is_blank json_loads str_of_other lines f t out = (out', Ok (f', t')) ->
  length (Validate.mismatches r) + f <= length (Validate.mismatches r0) + f' /\
  Validate.total r + t = Validate.total r0 + t'.
Proof.
  induction lines as [|ln lines IH]; intros n r0 r f t out out' f' t' Hv Hf.
  - simpl in Hv. injection Hv as <-. injection Hf as _ <- <-. lia.
  - simpl in Hv. rewrite fix_loop_cons in Hf.
    destruct (Validate.validate_line is_blank json_loads n ln r0) as [r1|] eqn:Hline;
      simpl in Hv; [|discriminate].
    destruct (is_blank ln) eqn:Hb.
    + apply validate_line_cases in Hline as [[_ ->] | [Hb' _]]; [|congruence].
      apply (IH _ _ _ _ _ _ _ _ _ Hv Hf).
    + destruct (Fix.fix_line json_loads str_of_other ln f t out)
        as [out1 [[f1 t1]|e]] eqn:Hfl; [|discriminate].
      simpl in Hf.
      destruct (fix_counts_mismatch _ _ _ _ _ _ _ _ _ _ Hline Hb Hfl) as (H1 & H2 & H3).
      destruct (IH _ _ _ _ _ _ _ _ _ Hv Hf) as [H4 H5]. lia.
Qed.

(** X17. The corrective tool is at least as strict as the validator: on a
    corpus both get through, they count the same records, and the tool fixes
    at least as many tickets as the validator reports; it compares labels
    exactly, the validator letter case aside. *)
Theorem fix_count_covers_mismatches lines path r out fixed :
  Validate.validate_dataset is_blank json_loads lines = Ok r ->
  Fix.fix_dataset is_blank json_loads str_of_other lines path no_output = (out, Ok fixed) ->
  length (Validate.mismatches r) <= fixed /\
  fixed <= Validate.total r /\
  Validate.total r = length (written out).
Proof.
  unfold Validate.validate_dataset, Fix.fix_dataset, io_bind. intros Hv Hf.
  destruct (Fix.fix_loop is_blank json_loads str_of_other lines 0 0 no_output)
    as [out1 [[f t]|e]] eqn:Hloop; simpl in Hf; [|discriminate].
  injection Hf as <- <-.
  destruct (fix_loop_counts_mismatches _ _ _ _ _ _ _ _ _ _ Hv Hloop) as [H1 H2].
  destruct (fix_loop_run _ _ _ _ _ _ _ _ _ Hloop) as (js & Hw & _ & Hlen & Ht & _ & Hle & _).
  simpl in *. subst js. lia.
Qed.

End FixAndValidate.

(** ** The label function of the generator *)

(** Membership in a list that is written out. *)
Ltac is_label :=
  unfold five_labels;
  repeat first [apply list_elem_of_here | apply list_elem_of_further].

Section DetermineLabelProperties.

Variables (data : json) (b : FactBundle).
Hypothesis facts : has_facts data b.

Ltac read_ten :=
  destruct facts as (F0 & F1 & F2 & F3 & F4 & F5 & F6 & F7 & F8 & F9);
  rewrite ?F0, ?F1, ?F2, ?F3, ?F4, ?F5, ?F6, ?F7, ?F8, ?F9;
  cbn [bind eq_str py_lower in_lower py_or].



(** X19. The generator draws a label at random in two places only.  Unless
    the commit is stale with no usage found in a private repository, or the
    credential is Active/Valid in a production, monolith or infrastructure
    repository with active or intermittent usage, the label does not depend
    on the draw. *)
Theorem generator_random_only_in_two_rules choice1 choice2 :
  ~ (commitAge b = "Stale (> 6 months)" /\
     usageEvidence b = "No usage found (90d+)" /\
     exposure b = "Private (Internal)") ->
  ~ (rotationStatus b = "Active/Valid" /\
     (repoType b = "Prod Microservice" \/ repoType b = "Monolith Core" \/
      repoType b = "Infrastructure-as-Code (Terraform/Ansible)") /\
     (usageEvidence b = "Active usage in CloudTrail/Logs (Last 1h)" \/
      usageEvidence b = "Intermittent usage (Last 7d)")) ->
  Generate.determine_label choice1 data = Generate.determine_label choice2 data.
Proof.
  intros N9 N11. unfold Generate.determine_label. read_ten.
  repeat match goal with
         | |- (if ?c then _ else _) = (if ?c then _ else _) =>
             destruct c eqn:?; [try reflexivity|]
         | |- bind (if ?c then _ else _) _ = bind (if ?c then _ else _) _ =>
             destruct c eqn:?; cbn [bind]
         | |- _ => reflexivity
         end;
    exfalso;
    repeat match goal with
           | H : _ = true |- _ =>
               rewrite ?andb_true_iff, ?orb_true_iff, ?bool_decide_eq_true in H;
               revert H
           end;
    intuition congruence.
Qed.

(** X20. Whatever the draw, as long as it picks a member of the list it is
    given, the generator returns one of the five labels. *)
Theorem generator_returns_a_label choice :
  (forall l, l <> [] -> choice l ∈ l) ->
  exists s, Generate.determine_label choice data = Ok s /\ s ∈ five_labels.
Proof.
  intros Hc.
  assert (C1 : choice ["Suppressed"; "Mitigated"] ∈ five_labels).
  { pose proof (Hc ["Suppressed"; "Mitigated"] ltac:(discriminate)) as H.
    apply elem_of_cons in H as [-> | H];
      [|apply list_elem_of_singleton in H as ->]; is_label. }
  assert (C2 : choice ["Open"; "Confirmed"] ∈ five_labels).
  { pose proof (Hc ["Open"; "Confirmed"] ltac:(discriminate)) as H.
    apply elem_of_cons in H as [-> | H];
      [|apply list_elem_of_singleton in H as ->]; is_label. }
  unfold Generate.determine_label. read_ten.
  repeat match goal with
         | |- exists s, (if ?c then _ else _) = _ /\ _ => destruct c
         | |- exists s, bind (if ?c then _ else _) _ = _ /\ _ =>
             destruct c; cbn [bind]
         end;
    eexists; (split; [reflexivity|]);
    first [exact C1 | exact C2 | is_label].
Qed.

(** X21. The generator and the engine disagree on a whole class of
    tickets: a test suite with a history of false positives whose
    Active/Valid credential is in active use is generated as False
    Positive, and the engine says Confirmed. *)
Theorem generator_disagrees_on_active_test_suite choice :
  repoType b = "Test/QA Suite" ->
  similarPastIncidents b = "Frequent False Positives in this file" ->
  rotationStatus b = "Active/Valid" ->
  contains "Active usage" (usageEvidence b) = true ->
  Generate.determine_label choice data = Ok "False Positive" /\
  Validate.apply_decision_logic data = Ok "Confirmed".
Proof.
  intros Ht Hp Hr Hu. split.
  - unfold Generate.determine_label. read_ten. rewrite Ht, Hp, Hr. reflexivity.
  - rewrite (validate_engine_canonical _ _ (has_facts_engine _ _ facts)).
    unfold Canonical.Evaluate, Canonical.rules, Canonical.first_match,
      Canonical.rule1, Canonical.rule2, Canonical.rule3, Canonical.rule4,
      Canonical.rule5, Canonical.hasRotation, Canonical.isArchived,
      Canonical.isTestSuite, Canonical.flagsFrequentFP, Canonical.isActiveUsage.
    rewrite Ht, Hp, Hr, Hu. reflexivity.
Qed.

End DetermineLabelProperties.

(** X22. The generator reads the commit age and the category before it
    decides anything: a fact dictionary without [detection] raises
    [KeyError], even for a revoked credential, which the engine labels. *)
Theorem generator_needs_detection choice (m : gmap string json) v1 v2 v3 v4 v5 v6 :
  field (JObj m) "repo_details" "type" = Ok v1 ->
  field (JObj m) "repo_details" "exposure" = Ok v2 ->
  field (JObj m) "repo_details" "criticality" = Ok v3 ->
  field (JObj m) "investigation" "usage_evidence" = Ok v4 ->
  field (JObj m) "investigation" "rotation_status" = Ok v5 ->
  field (JObj m) "investigation" "similar_past_incidents" = Ok v6 ->
  m !! "detection" = None ->
  Generate.determine_label choice (JObj m) = Raise (KeyError "detection").
Proof.
  intros H1 H2 H3 H4 H5 H6 Hd. unfold Generate.determine_label.
  rewrite H1, H2, H3, H4, H5, H6. cbn [bind].
  unfold field at 1. cbn [subscript bind]. rewrite Hd. reflexivity.
Qed.

(** ** The two comment functions *)

Lemma py_or_ok a b : py_or (Ok a) (Ok b) = Ok (a || b).
Proof. destruct a; reflexivity. Qed.

(** On the values the generator draws, the substring tests of the
    corrective tool are the equality tests of the generator. *)
Lemma usage_tests u :
  u ∈ Generate.USAGE_EVIDENCES ->
  contains "Active usage" u
    = bool_decide (u = "Active usage in CloudTrail/Logs (Last 1h)") /\
  contains "No usage found" u = bool_decide (u = "No usage found (90d+)").
Proof.
  unfold Generate.USAGE_EVIDENCES. intros H.
  repeat (apply elem_of_cons in H as [-> | H]; [split; reflexivity|]).
  inversion H.
Qed.

Lemma exposure_tests e :
  e ∈ Generate.EXPOSURE_TYPES ->
  contains "Public" e = bool_decide (e = "Public (Open Source)").
Proof.
  unfold Generate.EXPOSURE_TYPES. intros H.
  repeat (apply elem_of_cons in H as [-> | H]; [reflexivity|]).
  inversion H.
Qed.

Lemma criticality_tests c :
  c ∈ Generate.REPO_CRITICALITIES ->
  contains "P0" c = bool_decide (c = "Critical (P0 - Customer Data)").
Proof.
  unfold Generate.REPO_CRITICALITIES. intros H.
  repeat (apply elem_of_cons in H as [-> | H]; [reflexivity|]).
  inversion H.
Qed.

Lemma repo_type_tests r :
  r ∈ Generate.REPO_TYPES ->
  contains "Test" r || contains "QA" r = bool_decide (r = "Test/QA Suite") /\
  contains "Prod" r || contains "Monolith" r
    = bool_decide (r = "Prod Microservice") || bool_decide (r = "Monolith Core") /\
  contains "Deprecated" r || contains "Archived" r
    = bool_decide (r = "Deprecated/Archived").
Proof.
  unfold Generate.REPO_TYPES. intros H.
  repeat (apply elem_of_cons in H as [-> | H]; [repeat split; reflexivity|]).
  inversion H.
Qed.

(** What three labels of the rule list say about the bundle. *)
Lemma evaluate_inversion b :
  (Canonical.Evaluate b = Mitigated ->
   rotationStatus b = "Revoked" \/ rotationStatus b = "Already Rotated") /\
  (Canonical.Evaluate b = Suppressed -> Canonical.isArchived b = true) /\
  (Canonical.Evaluate b = Open ->
   rotationStatus b <> "Revoked" /\ rotationStatus b <> "Already Rotated" /\
   rotationStatus b <> "Invalid").
Proof.
  unfold Canonical.Evaluate, Canonical.rules, Canonical.first_match,
    Canonical.rule1, Canonical.rule2, Canonical.rule3, Canonical.rule8,
    Canonical.hasRotation.
  destruct (bool_decide_reflect (rotationStatus b = "Revoked"));
    destruct (bool_decide_reflect (rotationStatus b = "Already Rotated"));
    destruct (bool_decide_reflect (rotationStatus b = "Invalid"));
    simpl; try (repeat split; intros; first [discriminate | tauto]).
  destruct (Canonical.isArchived b); simpl;
    [repeat split; intros; first [discriminate | tauto]|].
  repeat match goal with
         | |- context [if ?c then _ else _] => destruct c; simpl
         end;
    repeat split; intros; first [discriminate | tauto].
Qed.

Section CommentAgreement.

#[local] Arguments join : simpl never.
#[local] Arguments append_if : simpl never.

Variable str_of_other : json -> string.
Variables (data : json) (b : FactBundle).
Hypothesis facts : has_facts data b.

Ltac read_ten :=
  destruct facts as (F0 & F1 & F2 & F3 & F4 & F5 & F6 & F7 & F8 & F9);
  rewrite ?F0, ?F1, ?F2, ?F3, ?F4, ?F5, ?F6, ?F7, ?F8, ?F9.

Lemma ideal_comment_of_reasoning label r :
  Generate.generate_reasoning str_of_other data label = Ok r ->
  Generate.generate_ideal_comment str_of_other data label
  = Ok (join (nl +:+ nl) [Layout.headline b; Layout.context b;
                          Layout.recommendation label; "Reasoning: " +:+ r]).
Proof.
  intros H. unfold Generate.generate_ideal_comment. rewrite H.
  rewrite join_sections.
  unfold Layout.headline, Layout.context, Layout.recommendation.
  read_ten. cbn [bind fmt]. rewrite !append_assoc. reflexivity.
Qed.

(** X26. On facts drawn from the generator's domains, and for the label of
    the engine, the two comment functions give the same reasoning, clause
    for clause: the comment of the corrective tool is the generator's
    comment with single line feeds in place of the blank lines. *)
Theorem comment_functions_agree_on_generated_facts :
  repoType b ∈ Generate.REPO_TYPES ->
  exposure b ∈ Generate.EXPOSURE_TYPES ->
  criticality b ∈ Generate.REPO_CRITICALITIES ->
  usageEvidence b ∈ Generate.USAGE_EVIDENCES ->
  rotationStatus b ∈ Generate.ROTATION_STATUSES ->
  exists clauses,
    Generate.generate_ideal_comment str_of_other data
      (label_str (Canonical.Evaluate b))
    = Ok (Layout.comment b (label_str (Canonical.Evaluate b)) clauses) /\
    Fix.generate_comment str_of_other data (label_str (Canonical.Evaluate b))
    = Ok (join nl [Layout.headline b; Layout.context b;
                   Layout.recommendation (label_str (Canonical.Evaluate b));
                   Layout.reasoning clauses]).
Proof.
  intros Hr He Hc Hu Hs.
  destruct (usage_tests _ Hu) as [U1 U2].
  pose proof (exposure_tests _ He) as E1.
  pose proof (criticality_tests _ Hc) as C1.
  destruct (repo_type_tests _ Hr) as (R1 & R2 & R3).
  destruct (evaluate_inversion b) as (IM & IS & IO).
  assert (Hrot : Canonical.Evaluate b = Open -> rotationStatus b = "Active/Valid").
  { intros E. destruct (IO E) as (N1 & N2 & N3).
    unfold Generate.ROTATION_STATUSES in Hs.
    repeat (apply elem_of_cons in Hs as [Hs | Hs]; [tauto|]). inversion Hs. }
  assert (Harch : Canonical.Evaluate b = Suppressed ->
                  repoType b = "Deprecated/Archived").
  { intros E. specialize (IS E). unfold Canonical.isArchived in IS.
    rewrite R3 in IS. apply bool_decide_eq_true in IS. exact IS. }
  destruct (Canonical.Evaluate b); cbn [label_str];
    try (destruct (IM eq_refl) as [Hm | Hm]);
    try (pose proof (Hrot eq_refl) as Ho);
    try (pose proof (Harch eq_refl) as Ha);
    eexists; (split;
      [ apply ideal_comment_of_reasoning;
        unfold Generate.generate_reasoning;
        read_ten; cbn [bind fmt eq_str];
        rewrite ?Hm, ?Ho, ?Ha; reflexivity
      | unfold Fix.generate_comment;
        rewrite join_sections;
        unfold Layout.headline, Layout.context, Layout.recommendation,
          Layout.reasoning;
        read_ten; cbn [bind fmt str_in eq_str];
        rewrite ?py_or_ok, ?U1, ?U2, ?E1, ?C1, ?R1, ?R2; cbn [bind];
        rewrite ?Hm, ?Ho, ?Ha; reflexivity ]).
Qed.

End CommentAgreement.

Section CommentEdges.

#[local] Arguments join : simpl never.
#[local] Arguments append_if : simpl never.

Variable str_of_other : json -> string.
Variables (data : json) (b : FactBundle).
Hypothesis facts : has_facts data b.

Ltac read_ten :=
  destruct facts as (F0 & F1 & F2 & F3 & F4 & F5 & F6 & F7 & F8 & F9);
  rewrite ?F0, ?F1, ?F2, ?F3, ?F4, ?F5, ?F6, ?F7, ?F8, ?F9.

Ltac is_clause :=
  unfold reasoning_clauses;
  repeat first [apply list_elem_of_here | apply list_elem_of_further].

Ltac label_case l s :=
  destruct (decide (l = s)) as [->|?];
  [ rewrite bool_decide_eq_true_2 by reflexivity
  | rewrite (bool_decide_eq_false_2 (l = s)) by assumption ];
  cbv iota.

(** The reasoning of the generator: clauses of [generate_reasoning], joined
    by single spaces; there is one at least when the label is one of the
    five, and none otherwise. *)
Lemma generate_reasoning_clauses label :
  exists clauses,
    Generate.generate_reasoning str_of_other data label = Ok (join " " clauses) /\
    Forall (fun c => c ∈ reasoning_clauses b) clauses /\
    (label ∈ five_labels <-> clauses <> []).
Proof.
  unfold Generate.generate_reasoning. read_ten. cbn [bind fmt eq_str].
  unfold append_if. cbv zeta.
  label_case label "Mitigated"; [|label_case label "Confirmed";
    [|label_case label "Open"; [|label_case label "Suppressed";
      [|label_case label "False Positive"]]]];
  repeat match goal with
         | |- context [bool_decide ?P] => destruct (bool_decide P)
         end;
  cbn [orb app]; cbv iota;
  (eexists; split; [reflexivity|]; split;
   [ repeat (apply List.Forall_cons; [solve [is_clause]|]); apply List.Forall_nil
   | split;
     [ first [ intros _; discriminate
             | intros Hin _; unfold five_labels in Hin;
               repeat (apply elem_of_cons in Hin as [Hin | Hin]; [congruence|]);
               inversion Hin ]
     | first [ solve [intros _; is_label]
             | intros Hn; exfalso; apply Hn; reflexivity ] ] ]).
Qed.

(** X23. The comment of the generator, on every bundle and for every label
    string: headline, context, recommendation and reasoning, a blank line
    between sections; the reasoning is the text [generate_reasoning]
    returns, which is clauses of that function joined by single spaces, one
    at least when the label is one of the five and none otherwise. *)
Theorem generator_comment_layout label :
  exists clauses,
    Generate.generate_reasoning str_of_other data label = Ok (join " " clauses) /\
    Generate.generate_ideal_comment str_of_other data label
    = Ok (Layout.comment b label clauses) /\
    Forall (fun c => c ∈ reasoning_clauses b) clauses /\
    (label ∈ five_labels <-> clauses <> []).
Proof.
  destruct (generate_reasoning_clauses label) as (clauses & Hr & Hc & He).
  exists clauses. split; [exact Hr|]. split; [|split; assumption].
  exact (ideal_comment_of_reasoning str_of_other data b facts label _ Hr).
Qed.

(** X24. On facts that are strings the comment function of the corrective
    tool never raises, whatever the label, and its comment is the four
    sections on consecutive lines. *)
Theorem fix_comment_sections label :
  exists clauses,
    Fix.generate_comment str_of_other data label
    = Ok (join nl [Layout.headline b; Layout.context b;
                   Layout.recommendation label; Layout.reasoning clauses]).
Proof. apply generate_comment_sections, facts. Qed.

(** X25. A label outside the five.  The generator gives it an empty
    reasoning; the corrective tool gives it the reasoning of Open. *)
Theorem comment_for_unknown_label label :
  label ∉ five_labels ->
  Generate.generate_ideal_comment str_of_other data label
    = Ok (Layout.comment b label []) /\
  exists clauses,
    Fix.generate_comment str_of_other data label
    = Ok (join nl [Layout.headline b; Layout.context b;
                   Layout.recommendation label; Layout.reasoning clauses]) /\
    Fix.generate_comment str_of_other data "Open"
    = Ok (join nl [Layout.headline b; Layout.context b;
                   Layout.recommendation "Open"; Layout.reasoning clauses]).
Proof.
  intros Hn. unfold five_labels in Hn.
  assert (N1 : label <> "Mitigated") by (intros ->; apply Hn; is_label).
  assert (N2 : label <> "False Positive") by (intros ->; apply Hn; is_label).
  assert (N3 : label <> "Suppressed") by (intros ->; apply Hn; is_label).
  assert (N4 : label <> "Confirmed") by (intros ->; apply Hn; is_label).
  assert (N5 : label <> "Open") by (intros ->; apply Hn; is_label).
  split.
  - apply ideal_comment_of_reasoning; [exact facts|].
    unfold Generate.generate_reasoning. read_ten. cbn [bind].
    rewrite !bool_decide_eq_false_2 by assumption. reflexivity.
  - eexists. split.
    + unfold Fix.generate_comment. rewrite join_sections.
      unfold Layout.headline, Layout.context, Layout.recommendation,
        Layout.reasoning.
      read_ten. cbn [bind fmt str_in].
      rewrite !bool_decide_eq_false_2 by assumption.
      rewrite !py_or_ok. cbn [bind]. reflexivity.
    + unfold Fix.generate_comment. rewrite join_sections.
      unfold Layout.headline, Layout.context, Layout.recommendation,
        Layout.reasoning.
      read_ten. cbn [bind fmt str_in].
      rewrite !py_or_ok. reflexivity.
Qed.

End CommentEdges.

(** ** The properties at work on the samples *)

Lemma engine_label_inversion_witness :
  Validate.apply_decision_logic
    (bundle_data "AKIA****" (with_rotation "Revoked" scenario_prod)) = Ok "Mitigated"
  <-> "Revoked" = "Revoked" \/ "Revoked" = "Already Rotated".
Proof.
  destruct (engine_label_inversion
              (bundle_data "AKIA****" (with_rotation "Revoked" scenario_prod))
              (with_rotation "Revoked" scenario_prod)) as [H _].
  - repeat split; reflexivity.
  - exact H.
Defined.

Lemma validator_accounting_witness :
  exists r,
    Validate.validate_dataset ascii_blank sample_loads
      ["<record 1>"; blank; "<record 2>"; "<record 3>"] = Ok r /\
    Validate.total r = 3 /\
    Validate.total r = Validate.matches r + length (Validate.mismatches r).
Proof.
  eexists. split; [reflexivity|].
  apply (validator_accounting ascii_blank sample_loads
           ["<record 1>"; blank; "<record 2>"; "<record 3>"]).
  reflexivity.
Defined.

Lemma validator_mismatches_exact_witness :
  exists r,
    Validate.validate_dataset ascii_blank sample_loads
      ["<record 1>"; blank; "<record 2>"; "<record 3>"] = Ok r /\
    forall m,
      m ∈ Validate.mismatches r <->
      1 <= Validate.line m /\
      exists ln,
        ["<record 1>"; blank; "<record 2>"; "<record 3>"] !! (Validate.line m - 1)
          = Some ln /\
        reported ascii_blank sample_loads ln m.
Proof.
  eexists. split; [reflexivity|].
  apply (validator_mismatches_exact ascii_blank sample_loads). reflexivity.
Defined.


Lemma validator_tally_sums_witness :
  exists r,
    Validate.validate_dataset ascii_blank sample_loads
      ["<record 1>"; blank; "<record 2>"; "<record 3>"] = Ok r /\
    sum_correct (Validate.by_label r) = Validate.matches r /\
    sum_incorrect (Validate.by_label r) = length (Validate.mismatches r).
Proof.
  eexists. split; [reflexivity|].
  apply (validator_tally_sums ascii_blank sample_loads
           ["<record 1>"; blank; "<record 2>"; "<record 3>"]).
  reflexivity.
Defined.

Lemma validator_reports_merge_witness :
  exists r1 r2,
    Validate.validate_dataset ascii_blank sample_loads ["<record 1>"; blank] = Ok r1 /\
    Validate.validate_dataset ascii_blank sample_loads ["<record 2>"; "<record 3>"] = Ok r2 /\
    Validate.validate_dataset ascii_blank sample_loads
      (["<record 1>"; blank] ++ ["<record 2>"; "<record 3>"])
    = Ok (merge_reports 2 r1 r2).
Proof.
  eexists _, _. split; [reflexivity|]. split; [reflexivity|].
  apply (validator_reports_merge ascii_blank sample_loads ["<record 1>"; blank]
           ["<record 2>"; "<record 3>"]); reflexivity.
Defined.

Lemma validator_label_not_a_string_witness :
  Validate.validate_dataset ascii_blank extended_loads
    (["<record 1>"; blank] ++ "<null label>" :: ["<record 2>"])
  = Raise (AttributeError "NoneType").
Proof.
  eapply (validator_label_not_a_string ascii_blank extended_loads ["<record 1>"; blank]
           "<null label>" ["<record 2>"] _ null_label_record
           (bundle_data "AKIA****" scenario_prod) "Confirmed" JNull);
    first [reflexivity | discriminate].
Defined.

Lemma validator_missing_ticket_id_witness :
  exists r,
    Validate.validate_dataset ascii_blank sample_loads
      (["<record 1>"] ++ "<no ticket id>" :: ["<record 3>"]) = Ok r /\
    Validate.total r = 3.
Proof.
  edestruct (validator_missing_ticket_id ascii_blank sample_loads ["<record 1>"]
               "<no ticket id>" ["<record 3>"]) as [H _];
    [reflexivity..|].
  rewrite (H eq_refl). eexists. split; reflexivity.
Defined.

Lemma validator_blank_corpus_witness :
  Validate.validate_dataset ascii_blank sample_loads [blank; nl; blank]
  = Ok Validate.initial_results.
Proof.
  apply validator_blank_corpus. repeat constructor.
Defined.


Lemma validate_after_fix_witness :
  exists r,
    Validate.validate_dataset ascii_blank extended_loads ["<fixed 3>"; "<fixed 2>"] = Ok r /\
    Validate.mismatches r = [] /\
    Validate.total r = length (written (fst fix_run)) /\
    Validate.matches r = length (written (fst fix_run)).
Proof.
  apply (validate_after_fix ascii_blank extended_loads sample_str fix_corpus
           "security_tickets_fixed.jsonl" (fst fix_run) (snd fix_run)
           ["<fixed 3>"; "<fixed 2>"]).
  - vm_compute. reflexivity.
  - repeat (apply List.Forall2_cons; [split; vm_compute; reflexivity|]).
    apply List.Forall2_nil.
Defined.


Lemma fix_count_covers_mismatches_witness :
  exists r,
    Validate.validate_dataset ascii_blank sample_loads fix_corpus = Ok r /\
    length (Validate.mismatches r) <= 2 /\
    2 <= Validate.total r /\
    Validate.total r = length (written (fst fix_run)).
Proof.
  eexists. split; [reflexivity|].
  apply (fix_count_covers_mismatches ascii_blank sample_loads sample_str fix_corpus
           "security_tickets_fixed.jsonl" _ (fst fix_run) 2).
  - reflexivity.
  - vm_compute. reflexivity.
Defined.


Lemma generator_random_only_in_two_rules_witness :
  Generate.determine_label first_choice (bundle_data "AKIA****" scenario_tooling)
  = Generate.determine_label (fun _ => "Open")
      (bundle_data "AKIA****" scenario_tooling).
Proof.
  apply (generator_random_only_in_two_rules _ scenario_tooling).
  - repeat split; reflexivity.
  - intros (H & _). discriminate H.
  - intros (_ & [H | [H | H]] & _); discriminate H.
Defined.

Lemma generator_returns_a_label_witness :
  exists s,
    Generate.determine_label first_choice (bundle_data "AKIA****" scenario_prod)
    = Ok s /\ s ∈ five_labels.
Proof.
  apply (generator_returns_a_label _ scenario_prod).
  - repeat split; reflexivity.
  - intros [|x l] H; [congruence|]. apply list_elem_of_here.
Defined.

Lemma generator_disagrees_on_active_test_suite_witness :
  Generate.determine_label first_choice
    (bundle_data "AKIA****" scenario_test_active) = Ok "False Positive" /\
  Validate.apply_decision_logic
    (bundle_data "AKIA****" scenario_test_active) = Ok "Confirmed".
Proof.
  apply (generator_disagrees_on_active_test_suite _ scenario_test_active);
    first [repeat split; reflexivity | reflexivity].
Defined.

Lemma generator_needs_detection_witness :
  Generate.determine_label first_choice mistyped_data
  = Raise (KeyError "detection").
Proof.
  eapply generator_needs_detection; reflexivity.
Defined.

Lemma generator_comment_layout_witness :
  exists clauses,
    Generate.generate_reasoning sample_str
      (bundle_data "AKIA****" scenario_prod) "Confirmed"
    = Ok (join " " clauses) /\
    Generate.generate_ideal_comment sample_str
      (bundle_data "AKIA****" scenario_prod) "Confirmed"
    = Ok (Layout.comment scenario_prod "Confirmed" clauses) /\
    Forall (fun c => c ∈ reasoning_clauses scenario_prod) clauses /\
    ("Confirmed" ∈ five_labels <-> clauses <> []).
Proof.
  apply generator_comment_layout. repeat split; reflexivity.
Defined.

Lemma fix_comment_sections_witness :
  exists clauses,
    Fix.generate_comment sample_str
      (bundle_data "AKIA****" scenario_prod) "Confirmed"
    = Ok (join nl [Layout.headline scenario_prod; Layout.context scenario_prod;
                   Layout.recommendation "Confirmed"; Layout.reasoning clauses]).
Proof.
  apply fix_comment_sections. repeat split; reflexivity.
Defined.

Lemma comment_for_unknown_label_witness :
  Generate.generate_ideal_comment sample_str
    (bundle_data "AKIA****" scenario_prod) "Escalated"
  = Ok (Layout.comment scenario_prod "Escalated" []).
Proof.
  apply (comment_for_unknown_label sample_str _ scenario_prod).
  - repeat split; reflexivity.
  - unfold five_labels. intros H.
    repeat (apply elem_of_cons in H as [H | H]; [discriminate H|]).
    inversion H.
Defined.

Lemma comment_functions_agree_on_generated_facts_witness :
  exists clauses,
    Generate.generate_ideal_comment sample_str
      (bundle_data "AKIA****" scenario_prod) "Confirmed"
    = Ok (Layout.comment scenario_prod "Confirmed" clauses) /\
    Fix.generate_comment sample_str (bundle_data "AKIA****" scenario_prod) "Confirmed"
    = Ok (join nl [Layout.headline scenario_prod; Layout.context scenario_prod;
                   Layout.recommendation "Confirmed"; Layout.reasoning clauses]).
Proof.
  apply (comment_functions_agree_on_generated_facts sample_str _ scenario_prod).
  - repeat split; reflexivity.
  - is_label.
  - is_label.
  - is_label.
  - is_label.
  - is_label.
Defined.
